(** * Tauticord: the Tautulli connector ([modules/tautulli_connector.py])

    A shallow embedding of the session snapshot reconciliation and of the
    terminate-by-index command, together with the derived numeric fields of
    [Session] and [Activity].

    Python values are a small inductive type, exceptions are data, and the
    module-level dictionary [session_ids] lives in an explicit state that
    every operation threads through an error-and-state monad. *)

From Stdlib Require Import Ascii String DecimalString.
From stdpp Require Import base numbers strings list gmap.

Open Scope string_scope.
Open Scope list_scope.
Open Scope Z_scope.

Set Warnings "-register-all".

(** ** Exceptions *)

(** The [Exception] subclasses the connector can meet.  [OtherError] stands
    for any [Exception] that is neither a [KeyError] nor a [ValueError]
    (a transport error of a collaborator, say).  [BaseException]s outside
    [Exception], such as an interrupt, are not modelled. *)
Inductive exn : Type :=
  | KeyError
  | ValueError
  | TypeError
  | AttributeError
  | ZeroDivisionError
  | OverflowError
  | OtherError (name : string).

Definition is_KeyError (e : exn) : bool :=
  match e with KeyError => true | _ => false end.

Definition is_ValueError (e : exn) : bool :=
  match e with ValueError => true | _ => false end.

(** [except Exception] and a bare [except] catch every modelled exception. *)
Definition is_Exception (e : exn) : bool := true.

Inductive result (A : Type) : Type :=
  | Ok (a : A)
  | Raise (e : exn).
Arguments Ok {A} a.
Arguments Raise {A} e.

#[global] Instance result_ret : MRet result := fun A a => Ok a.
#[global] Instance result_bind : MBind result := fun A B f r =>
  match r with Ok a => f a | Raise e => Raise e end.
#[global] Instance result_fmap : FMap result := fun A B f r =>
  match r with Ok a => Ok (f a) | Raise e => Raise e end.

(** [try: return body / except: return default]. *)
Definition or_default {A : Type} (body : result A) (default : A) : A :=
  match body with Ok a => a | Raise _ => default end.

(** ** Python values *)

(** The values a payload of the monitoring API is made of.  Strings are
    sequences of characters ([ascii] stands for one character), a [VDict]
    lists its items in insertion order with pairwise distinct keys, and
    [VObj r s] is any other object: all the connector can observe of it is
    what [repr()] and [str()] do on it.  Numbers with a fractional part are
    outside the model. *)
Inductive pyval : Type :=
  | VNone
  | VBool (b : bool)
  | VInt (n : Z)
  | VStr (s : string)
  | VList (l : list pyval)
  | VDict (d : list (string * pyval))
  | VObj (r s : result string).

(** [bool(v)], as used by [if v:]. *)
Definition py_truthy (v : pyval) : bool :=
  match v with
  | VNone => false
  | VBool b => b
  | VInt n => negb (n =? 0)
  | VStr s => negb (String.eqb s "")
  | VList l => match l with [] => false | _ => true end
  | VDict d => match d with [] => false | _ => true end
  | VObj _ _ => true
  end.

Fixpoint dict_lookup (d : list (string * pyval)) (k : string) : option pyval :=
  match d with
  | [] => None
  | (k', v) :: d' => if String.eqb k' k then Some v else dict_lookup d' k
  end.

(** [v.get(k, default)]: only a dict has the method. *)
Definition py_get (v : pyval) (k : string) (default : pyval) : result pyval :=
  match v with
  | VDict d => Ok (match dict_lookup d k with Some x => x | None => default end)
  | _ => Raise AttributeError
  end.

(** [v[k]] with a string key [k]. *)
Definition py_getitem (v : pyval) (k : string) : result pyval :=
  match v with
  | VDict d => match dict_lookup d k with Some x => Ok x | None => Raise KeyError end
  | _ => Raise TypeError
  end.

(** [list(v)]: the items a [for] loop or a comprehension draws from [v]. *)
Definition py_iter (v : pyval) : result (list pyval) :=
  match v with
  | VList l => Ok l
  | VDict d => Ok (map (fun kv => VStr (fst kv)) d)
  | VStr s => Ok (map (fun c => VStr (String c "")) (list_ascii_of_string s))
  | _ => Raise TypeError
  end.

(** *** [int(v)] *)

Definition is_space (c : ascii) : bool :=
  let n := nat_of_ascii c in
  ((9 <=? n) && (n <=? 13))%nat || (n =? 32)%nat.

Definition digit_of (c : ascii) : option Z :=
  let n := nat_of_ascii c in
  if ((48 <=? n) && (n <=? 57))%nat then Some (Z.of_nat n - 48) else None.

Fixpoint lstrip (l : list ascii) : list ascii :=
  match l with
  | c :: l' => if is_space c then lstrip l' else l
  | [] => []
  end.

Definition strip (l : list ascii) : list ascii := rev (lstrip (rev (lstrip l))).

(** Decimal digits, single underscores allowed between two digits.
    [after_digit] tells whether the previous character was a digit. *)
Fixpoint parse_digits (l : list ascii) (acc : Z) (after_digit : bool) : option Z :=
  match l with
  | [] => if after_digit then Some acc else None
  | c :: l' =>
      match digit_of c with
      | Some d => parse_digits l' (10 * acc + d) true
      | None =>
          if (Ascii.eqb c "_" && after_digit)%bool
          then match l' with
               | c' :: _ => match digit_of c' with
                            | Some _ => parse_digits l' acc false
                            | None => None
                            end
               | [] => None
               end
          else None
      end
  end.

(** [int(s)] for a string in base ten; [None] is a [ValueError].  The
    interpreter's configurable cap on the number of digits of a conversion
    between text and integers is not modelled, here and in [repr]. *)
Definition int_of_string (s : string) : option Z :=
  match strip (list_ascii_of_string s) with
  | "-"%char :: l => Z.opp <$> parse_digits l 0 false
  | "+"%char :: l => parse_digits l 0 false
  | l => parse_digits l 0 false
  end.

Definition py_int (v : pyval) : result Z :=
  match v with
  | VInt n => Ok n
  | VBool b => Ok (if b then 1 else 0)
  | VStr s => match int_of_string s with Some n => Ok n | None => Raise ValueError end
  | _ => Raise TypeError
  end.

(** *** [repr(v)] and [str(v)] *)

Definition string_of_Z (n : Z) : string := NilZero.string_of_int (Z.to_int n).

Definition hex_digit (n : nat) : ascii :=
  ascii_of_nat (if (n <? 10)%nat then 48 + n else 87 + n)%nat.

Definition repr_char (quote c : ascii) : string :=
  let n := nat_of_ascii c in
  if (Ascii.eqb c quote || Ascii.eqb c "\")%bool then String "\" (String c "")
  else if (n =? 9)%nat then "\t"
  else if (n =? 10)%nat then "\n"
  else if (n =? 13)%nat then "\r"
  else if ((n <? 32) || (n =? 127))%nat
       then String "\" (String "x" (String (hex_digit (n / 16)) (String (hex_digit (n mod 16)) "")))
  else String c "".

Definition double_quote : ascii := ascii_of_nat 34.

Definition has_char (c : ascii) (s : string) : bool :=
  existsb (Ascii.eqb c) (list_ascii_of_string s).

Definition repr_string (s : string) : string :=
  let quote : ascii :=
    if (has_char "'" s && negb (has_char double_quote s))%bool then double_quote else "'"%char in
  String quote
    (String.concat "" (map (repr_char quote) (list_ascii_of_string s)) +:+ String quote "").

(** [repr(v)].  The text of a container is built from the [repr] of its
    items, and the first item whose [repr] raises makes the whole call
    raise. *)
Fixpoint py_repr (v : pyval) : result string :=
  match v with
  | VNone => Ok "None"
  | VBool b => Ok (if b then "True" else "False")
  | VInt n => Ok (string_of_Z n)
  | VStr s => Ok (repr_string s)
  | VList l =>
      let fix items (l : list pyval) : result (list string) :=
        match l with
        | [] => Ok []
        | x :: l' =>
            match py_repr x with
            | Ok t => match items l' with Ok ts => Ok (t :: ts) | Raise e => Raise e end
            | Raise e => Raise e
            end
        end in
      match items l with
      | Ok ts => Ok ("[" +:+ String.concat ", " ts +:+ "]")
      | Raise e => Raise e
      end
  | VDict d =>
      let fix items (d : list (string * pyval)) : result (list string) :=
        match d with
        | [] => Ok []
        | (k, x) :: d' =>
            match py_repr x with
            | Ok t =>
                match items d' with
                | Ok ts => Ok ((repr_string k +:+ ": " +:+ t) :: ts)
                | Raise e => Raise e
                end
            | Raise e => Raise e
            end
        end in
      match items d with
      | Ok ts => Ok ("{" +:+ String.concat ", " ts +:+ "}")
      | Raise e => Raise e
      end
  | VObj r _ => r
  end.

(** [str(v)], which is also what an f-string field [{v}] renders. *)
Definition py_str (v : pyval) : result string :=
  match v with
  | VStr s => Ok s
  | VObj _ s => s
  | _ => py_repr v
  end.

(** [a - b]: defined when both operands are integers (a [bool] is one). *)
Definition as_integer (v : pyval) : option Z :=
  match v with
  | VInt n => Some n
  | VBool b => Some (if b then 1 else 0)
  | _ => None
  end.

Definition py_sub (a b : pyval) : result pyval :=
  match as_integer a, as_integer b with
  | Some x, Some y => Ok (VInt (x - y))
  | _, _ => Raise TypeError
  end.

(** [a == s] for a string literal [s]. *)
Definition py_eq_str (a : pyval) (s : string) : bool :=
  match a with VStr t => String.eqb t s | _ => false end.

(** *** True division of integers, and [int()] of the quotient *)

(** A finite binary64 number, [(-1)^neg * mant * 2^expo]. *)
Record float64 : Type := { f_neg : bool; f_mant : Z; f_expo : Z }.

(** [n / d] rounded to the nearest integer, ties to even ([0 <= n], [0 < d]). *)
Definition round_half_even (n d : Z) : Z :=
  let q := n / d in
  let r := n mod d in
  if 2 * r <? d then q
  else if d <? 2 * r then q + 1
  else if Z.even q then q else q + 1.

(** [2^k <= a / b], for positive [a] and [b]. *)
Definition quotient_ge_pow2 (a b k : Z) : bool :=
  if 0 <=? k then b * 2 ^ k <=? a else b <=? a * 2 ^ (- k).

(** [floor (log2 (a / b))], for positive [a] and [b]. *)
Definition quotient_exponent (a b : Z) : Z :=
  let d := Z.log2 a - Z.log2 b in
  if quotient_ge_pow2 a b d then d else d - 1.

(** [a / b] on integers: the exact quotient, correctly rounded to binary64
    (53 significant bits, least exponent -1074); too large a quotient is an
    [OverflowError]. *)
Definition int_true_divide (a b : Z) : result float64 :=
  if b =? 0 then Raise ZeroDivisionError
  else if a =? 0 then Ok {| f_neg := false; f_mant := 0; f_expo := 0 |}
  else
    let x := Z.abs a in
    let y := Z.abs b in
    let e := Z.max (quotient_exponent x y - 52) (-1074) in
    let m := if 0 <=? e then round_half_even x (y * 2 ^ e)
             else round_half_even (x * 2 ^ (- e)) y in
    if (0 <=? e) && (2 ^ 1024 <=? m * 2 ^ e) then Raise OverflowError
    else Ok {| f_neg := xorb (a <? 0) (b <? 0); f_mant := m; f_expo := e |}.

(** [int(f)]: truncation towards zero. *)
Definition int_of_float (f : float64) : Z :=
  let v := if 0 <=? f_expo f then f_mant f * 2 ^ f_expo f
           else f_mant f / 2 ^ (- f_expo f) in
  if f_neg f then - v else v.

(** ** Session *)

Module Session.

Record t : Type := mk { _data : pyval; _time_settings : pyval }.

(** The closing [int(value)] of the two properties below acts on an
    integer and returns it. *)
Definition duration_milliseconds (self : t) : result Z :=
  value ← py_get (_data self) "duration" (VInt 0);
  mret (or_default (py_int value) 0).

Definition location_milliseconds (self : t) : result Z :=
  value ← py_get (_data self) "view_offset" (VInt 0);
  mret (or_default (py_int value) 0).

Definition progress_percentage (self : t) : result Z :=
  duration ← duration_milliseconds self;
  if duration =? 0 then mret 0
  else
    location ← location_milliseconds self;
    duration ← duration_milliseconds self;
    quotient ← int_true_divide location duration;
    mret (int_of_float quotient).

Definition id (self : t) : result pyval := py_getitem (_data self) "session_id".

Definition stream_container_decision (self : t) : result pyval :=
  py_getitem (_data self) "stream_container_decision".

Definition is_transcoding (self : t) : result bool :=
  decision ← stream_container_decision self;
  mret (py_eq_str decision "transcode").

End Session.

(** ** Collaborators outside this file *)

(** [modules/utils.py] and [modules/statics.py] are not among the sources:
    what the connector calls in them is taken as a parameter.  Every call
    may raise. *)
Record Formatting : Type := {
  (** [utils.human_bitrate(float(value) * 1024)] *)
  human_bitrate : pyval -> result string;
  (** [statics.sessions_message.format(stream_count=n,
      word=utils.make_plural(word='stream', count=n))] *)
  sessions_message : Z -> result string;
  (** [statics.transcodes_message.format(transcode_count=n,
      word=utils.make_plural(word='transcode', count=n))] *)
  transcodes_message : Z -> result string;
  (** [statics.bandwidth_message.format(bandwidth=b)] *)
  bandwidth_message : string -> result string;
  (** [statics.lan_bandwidth_message.format(bandwidth=b)] *)
  lan_bandwidth_message : string -> result string
}.

(** ** Activity *)

Module Activity.

Record t : Type := mk { _data : pyval; _time_settings : pyval }.

Definition stream_count (self : t) : result Z :=
  value ← py_get (_data self) "stream_count" (VInt 0);
  mret (or_default (py_int value) 0).

Definition sessions (self : t) : result (list Session.t) :=
  raw ← py_get (_data self) "sessions" (VList []);
  records ← py_iter raw;
  mret (map (fun session_data => Session.mk session_data (_time_settings self)) records).

(** [[s.is_transcoding for s in sessions]] *)
Fixpoint transcoding_flags (sessions : list Session.t) : result (list bool) :=
  match sessions with
  | [] => mret []
  | s :: rest =>
      flag ← Session.is_transcoding s;
      flags ← transcoding_flags rest;
      mret (flag :: flags)
  end.

Definition transcode_count (self : t) : result Z :=
  all ← sessions self;
  flags ← transcoding_flags all;
  mret (Z.max 0 (Z.of_nat (length (filter (fun b => b = true) flags)))).

Section WithFormatting.
Variable F : Formatting.

Definition total_bandwidth (self : t) : result (option string) :=
  value ← py_get (_data self) "total_bandwidth" (VInt 0);
  mret (or_default (Some <$> human_bitrate F value) None).

Definition lan_bandwidth (self : t) : result (option string) :=
  value ← py_get (_data self) "lan_bandwidth" (VInt 0);
  mret (or_default (Some <$> human_bitrate F value) None).

Definition wan_bandwidth (self : t) : result (option string) :=
  total ← py_get (_data self) "total_bandwidth" (VInt 0);
  lan ← py_get (_data self) "lan_bandwidth" (VInt 0);
  value ← py_sub total lan;
  mret (or_default (Some <$> human_bitrate F value) None).

(** The properties are pure, so each is read once where the source
    reads it again for the same value. *)
Definition message (self : t) : result string :=
  let overview_message := "" in
  count ← stream_count self;
  overview_message ←
    (if 0 <? count then
       text ← sessions_message F count;
       let overview_message := overview_message +:+ text in
       transcodes ← transcode_count self;
       if 0 <? transcodes then
         text ← transcodes_message F transcodes;
         mret (overview_message +:+ " (" +:+ text +:+ ")")
       else mret overview_message
     else mret overview_message);
  total ← total_bandwidth self;
  match total with
  | Some total_text =>
      if negb (String.eqb total_text "") then
        text ← bandwidth_message F total_text;
        let overview_message := overview_message +:+ " | " +:+ text in
        lan ← lan_bandwidth self;
        match lan with
        | Some lan_text =>
            if negb (String.eqb lan_text "") then
              text ← lan_bandwidth_message F lan_text;
              mret (overview_message +:+ " " +:+ text)
            else mret overview_message
        | None => mret overview_message
        end
      else mret overview_message
  | None => mret overview_message
  end.

End WithFormatting.

End Activity.

(** ** The process state and its monad *)

Inductive log_entry : Type :=
  | LogDebug (text : string)
  | LogInfo (text : string)
  | LogError (error : exn).

(** [session_ids] is the module-level dictionary; [log] collects what
    [modules.logs] is asked to write. *)
Record state : Type := { session_ids : gmap Z string; log : list log_entry }.

(** A computation reads and writes the state and either returns or raises;
    what it wrote before raising stays written. *)
Definition M (A : Type) : Type := state -> result A * state.

#[global] Instance M_ret : MRet M := fun A a st => (Ok a, st).
#[global] Instance M_bind : MBind M := fun A B f m st =>
  match m st with
  | (Ok a, st') => f a st'
  | (Raise e, st') => (Raise e, st')
  end.

Definition lift {A : Type} (r : result A) : M A := fun st => (r, st).

(** [try: body / except <caught> as e: handler e] *)
Definition try_except {A : Type} (body : M A) (caught : exn -> bool)
    (handler : exn -> M A) : M A := fun st =>
  match body st with
  | (Raise e, st') => if caught e then handler e st' else (Raise e, st')
  | finished => finished
  end.

Definition get_session_ids : M (gmap Z string) := fun st => (Ok (session_ids st), st).

(** [session_ids = ids] under [global session_ids] *)
Definition set_session_ids (ids : gmap Z string) : M unit := fun st =>
  (Ok tt, {| session_ids := ids; log := log st |}).

(** [session_ids[key] = value] *)
Definition setitem_session_ids (key : Z) (value : string) : M unit := fun st =>
  (Ok tt, {| session_ids := <[key := value]> (session_ids st); log := log st |}).

Module logging.

Definition write (entry : log_entry) : M unit := fun st =>
  (Ok tt, {| session_ids := session_ids st; log := log st ++ [entry] |}).

Definition debug (text : string) : M unit := write (LogDebug text).
Definition info (text : string) : M unit := write (LogInfo text).
Definition error (e : exn) : M unit := write (LogError e).

End logging.

(** ** The collaborators of the connector *)

(** The monitoring API client ([tautulli.RawAPI]): what each request of one
    operation answers, or raises. *)
Record RawAPI : Type := {
  activity : result pyval;
  server_status : result pyval;
  terminate_session : string -> string -> result pyval
}.

(** The analytics object handed to the connector:
    [event(event_category=..., event_action=..., random_uuid_if_needed=True)]. *)
Record Analytics : Type := { event : string -> string -> result unit }.

(** ** Text methods, templates and the display members of a session *)

(** The lookup of a [str] method on [v]: anything but a string has none. *)
Definition as_str (v : pyval) : result string :=
  match v with VStr s => Ok s | _ => Raise AttributeError end.

Fixpoint is_prefix (p s : list ascii) : bool :=
  match p, s with
  | [], _ => true
  | a :: p', b :: s' => Ascii.eqb a b && is_prefix p' s'
  | _ :: _, [] => false
  end.

(** [skip] characters of a match that was just replaced are still to be
    passed over. *)
Fixpoint replace_chars (old new s : list ascii) (skip : nat) : list ascii :=
  match s with
  | [] => []
  | c :: s' =>
      match skip with
      | S k => replace_chars old new s' k
      | O =>
          if is_prefix old s
          then new ++ replace_chars old new s' (length old - 1)
          else c :: replace_chars old new s' 0
      end
  end.

(** [s.replace(old, new)] for a non-empty [old], as the connector calls it:
    every occurrence, from the left, without overlap. *)
Definition str_replace (s old new : string) : string :=
  string_of_list_ascii
    (replace_chars (list_ascii_of_string old) (list_ascii_of_string new)
       (list_ascii_of_string s) 0).

(** Text is held as its UTF-8 bytes, as the literals of this file are.
    The bytes [10xxxxxx] continue a character; every other byte starts
    one. *)
Definition is_continuation (c : ascii) : bool :=
  ((128 <=? nat_of_ascii c) && (nat_of_ascii c <? 192))%nat.

(** [len(s)]: the number of characters. *)
Fixpoint characters (s : string) : nat :=
  match s with
  | EmptyString => 0%nat
  | String c rest => ((if is_continuation c then 0 else 1) + characters rest)%nat
  end.

(** [s.zfill(width)]: zeros on the left, after a leading sign, up to
    [width] characters. *)
Definition zfill (s : string) (width : nat) : string :=
  let n := characters s in
  if (width <=? n)%nat then s
  else
    let zeros := string_of_list_ascii (repeat "0"%char (width - n)) in
    match s with
    | String c rest =>
        if (Ascii.eqb c "+" || Ascii.eqb c "-")%bool
        then String c (zeros +:+ rest)
        else zeros +:+ s
    | EmptyString => zeros
    end.

Definition newline : string := String (ascii_of_nat 10) "".

(** The icon of a media type that has none of its own. *)
Definition gift : string := "🎁".

(** [table.get(key, "")] on a dict with text keys: a list or a dict is no
    key at all, and any other value that is no text is simply not there. *)
Definition table_get (table : list (string * string)) (key : pyval)
    : result (option string) :=
  match key with
  | VStr k => Ok (snd <$> find (fun entry => String.eqb (fst entry) k) table)
  | VList _ | VDict _ => Raise TypeError
  | _ => Ok None
  end.

(** What the display members call in [modules/utils.py] and
    [modules/statics.py], which are not among the sources, taken as
    parameters like [Formatting].  [datetime] is whatever the clock helpers
    pass from one to the other; [now_plus_milliseconds] reads the clock, so
    it stands for the answer at the time of the call. *)
Record Templates : Type := {
  datetime : Type;
  (** [utils.milliseconds_to_minutes_seconds(milliseconds=n)] *)
  milliseconds_to_minutes_seconds : Z -> result string;
  (** [utils.now_plus_milliseconds(milliseconds=n, timezone_code=tz)] *)
  now_plus_milliseconds : Z -> pyval -> result datetime;
  (** [utils.datetime_to_string(datetime_object=d, template=t)] *)
  datetime_to_string : datetime -> string -> result string;
  (** [statics.switcher], a dict from text to text *)
  switcher : list (string * string);
  (** [statics.media_type_icons], a dict from text to text *)
  media_type_icons : list (string * string);
  (** [statics.emoji_from_stream_number(n)] *)
  emoji_from_stream_number : Z -> result string;
  (** [statics.session_title_message.format(emoji=, icon=, username=,
      media_type_icon=, title=)] *)
  session_title_message : string -> string -> pyval -> string -> pyval -> result string;
  (** [statics.session_player_message.format(product=, player=)] *)
  session_player_message : pyval -> pyval -> result string;
  (** [statics.session_details_message.format(quality_profile=, bandwidth=,
      transcoding=)] *)
  session_details_message : pyval -> string -> string -> result string;
  (** [statics.session_progress_message.format(progress=, eta=)] *)
  session_progress_message : string -> string -> result string
}.

(** The members of [Session] that feed the renderer. *)
Module SessionView.

Import Session.

(** Each field of an f-string is evaluated and rendered before the next. *)
Definition title (self : Session.t) : result pyval :=
  live ← py_get (_data self) "live" VNone;
  if py_truthy live then
    grandparent ← py_get (_data self) "grandparent_title" (VStr "") ≫= py_str;
    name ← py_getitem (_data self) "title" ≫= py_str;
    mret (VStr (grandparent +:+ " - " +:+ name))
  else
    media_type ← py_getitem (_data self) "media_type";
    if py_eq_str media_type "episode" then
      grandparent ← py_get (_data self) "grandparent_title" (VStr "") ≫= py_str;
      season ← py_get (_data self) "parent_title" (VStr "") ≫= as_str;
      let season := zfill (str_replace season "Season " "") 2 in
      episode ← py_get (_data self) "media_index" (VStr "") ≫= as_str;
      let episode := zfill episode 2 in
      name ← py_getitem (_data self) "title" ≫= py_str;
      mret (VStr (grandparent +:+ " - S" +:+ season +:+ "E" +:+ episode +:+ " - " +:+ name))
    else py_get (_data self) "full_title" VNone.

Definition username (self : Session.t) : result pyval := py_getitem (_data self) "username".
Definition product (self : Session.t) : result pyval := py_getitem (_data self) "product".
Definition player (self : Session.t) : result pyval := py_getitem (_data self) "player".
Definition quality_profile (self : Session.t) : result pyval :=
  py_getitem (_data self) "quality_profile".

Definition transcoding_stub (self : Session.t) : result string :=
  transcoding ← is_transcoding self;
  mret (if transcoding : bool then " (Transcode)" else "").

Section WithHelpers.
Variable F : Formatting.
Variable T : Templates.

Definition progress_marker (self : Session.t) : result string :=
  location ← location_milliseconds self;
  current_progress_min_sec ← milliseconds_to_minutes_seconds T location;
  duration ← duration_milliseconds self;
  total_min_sec ← milliseconds_to_minutes_seconds T duration;
  mret (current_progress_min_sec +:+ "/" +:+ total_min_sec).

Definition eta (self : Session.t) : result string :=
  duration ← duration_milliseconds self;
  if duration =? 0 then mret "Unknown"
  else
    location ← location_milliseconds self;
    if location =? 0 then mret "Unknown"
    else
      let milliseconds_remaining := duration - location in
      timezone ← py_getitem (_time_settings self) "timezone";
      eta_datetime ← now_plus_milliseconds T milliseconds_remaining timezone;
      mil_time ← py_getitem (_time_settings self) "mil_time";
      datetime_to_string T eta_datetime (if py_truthy mil_time then "%H:%M" else "%I:%M %p").

Definition status_icon (self : Session.t) : result string :=
  state ← py_getitem (_data self) "state";
  icon ← table_get (switcher T) state;
  mret (default "" icon).

Definition type_icon (self : Session.t) : M string :=
  media_type ← lift (py_getitem (_data self) "media_type");
  icon ← lift (table_get (media_type_icons T) media_type);
  match icon with
  | Some icon => mret icon
  | None =>
      live ← lift (py_get (_data self) "live" VNone);
      if py_truthy live then
        lift (match table_get (media_type_icons T) (VStr "live") with
              | Ok (Some icon) => Ok icon
              | Ok None => Raise KeyError
              | Raise e => Raise e
              end)
      else
        name ← lift (py_getitem (_data self) "title");
        media_type ← lift (py_getitem (_data self) "media_type");
        name ← lift (py_str name);
        media_type ← lift (py_str media_type);
        _ ← logging.info ("New media_type to pick icon for: " +:+ name +:+ ": "
                          +:+ media_type);
        mret gift
  end.

Definition bandwidth (self : Session.t) : result string :=
  value ← py_get (_data self) "bandwidth" (VInt 0);
  human_bitrate F (VInt (or_default (py_int value) 0)).

Definition _session_title (self : Session.t) (session_number : Z) : M string :=
  emoji ← lift (emoji_from_stream_number T session_number);
  icon ← lift (status_icon self);
  username ← lift (username self);
  media_type_icon ← type_icon self;
  title ← lift (title self);
  lift (session_title_message T emoji icon username media_type_icon title).

Definition _session_player (self : Session.t) : result string :=
  product ← product self;
  player ← player self;
  session_player_message T product player.

Definition _session_details (self : Session.t) : result string :=
  quality_profile ← quality_profile self;
  bandwidth ← bandwidth self;
  transcoding ← transcoding_stub self;
  session_details_message T quality_profile bandwidth transcoding.

Definition _session_progress (self : Session.t) : result string :=
  progress ← progress_marker self;
  eta ← eta self;
  session_progress_message T progress eta.

End WithHelpers.

End SessionView.

(** ** The library requests of the API client *)

(** The two library requests of [tautulli.RawAPI], next to [RawAPI]. *)
Record LibraryAPI : Type := {
  library_names : result pyval;
  get_library : pyval -> result pyval
}.

(** What the library methods hand to [modules.logs].  They touch no state,
    so each returns its result together with the lines it logged, in
    order. *)
Inductive library_log : Type :=
  | LibraryInfo (text : string)
  | LibraryError (text : string).

Definition Logged (A : Type) : Type := result A * list library_log.

#[global] Instance Logged_ret : MRet Logged := fun A a => (Ok a, []).
#[global] Instance Logged_bind : MBind Logged := fun A B f m =>
  match m with
  | (Ok a, lines) => let (r, lines') := f a in (r, lines ++ lines')
  | (Raise e, lines) => (Raise e, lines)
  end.

Definition unlogged {A : Type} (r : result A) : Logged A := (r, []).
Definition logged (line : library_log) : Logged unit := (Ok tt, [line]).

Module TautulliStreamInfo.

Record t : Type := mk { _session : Session.t; _session_number : Z }.

Section WithHelpers.
Variable F : Formatting.
Variable T : Templates.

Definition title (self : t) : M string :=
  try_except (SessionView._session_title T (_session self) (_session_number self))
    is_Exception
    (fun title_exception => mret "Unknown").

Definition player (self : t) : result string := SessionView._session_player T (_session self).

Definition details (self : t) : result string :=
  SessionView._session_details F T (_session self).

Definition progress (self : t) : result string :=
  SessionView._session_progress T (_session self).

Definition body (self : t) : M string :=
  try_except
    (lift (player ← player self;
           details ← details self;
           progress ← progress self;
           mret (player +:+ newline +:+ details +:+ newline +:+ progress)))
    is_Exception
    (fun body_exception =>
       _ ← logging.error body_exception;
       mret ("Could not display data for session " +:+ string_of_Z (_session_number self))).

End WithHelpers.

End TautulliStreamInfo.

Module TautulliDataResponse.

Record t : Type := mk {
  _overview_message : string;
  _streams : list TautulliStreamInfo.t;
  plex_pass : bool;
  error : bool
}.

(** [__init__]: [streams_info or []], with the defaults of the source
    written out at the call sites. *)
Definition init (overview_message : string)
    (streams_info : option (list TautulliStreamInfo.t))
    (plex_pass error_occurred : bool) : t :=
  mk overview_message (default [] streams_info) plex_pass error_occurred.

(** A [discord.Embed], as far as the response fills it: a title, the
    fields in the order they were added (name, value, inline) and a
    footer. *)
Record Embed : Type := {
  embed_title : string;
  embed_fields : list (string * string * bool);
  embed_footer : option string
}.

Section WithHelpers.
Variable F : Formatting.
Variable T : Templates.

(** The [for stream in self._streams] loop of [embed]. *)
Fixpoint add_fields (streams : list TautulliStreamInfo.t) (fields : list (string * string * bool))
    : M (list (string * string * bool)) :=
  match streams with
  | [] => mret fields
  | stream :: rest =>
      name ← TautulliStreamInfo.title T stream;
      value ← TautulliStreamInfo.body F T stream;
      add_fields rest (fields ++ [(name, value, false)])
  end.

Definition embed (self : t) : M Embed :=
  match _streams self with
  | [] => mret {| embed_title := "No current activity"; embed_fields := [];
                  embed_footer := None |}
  | _ =>
      fields ← add_fields (_streams self) [];
      mret {| embed_title := _overview_message self;
              embed_fields := fields;
              embed_footer :=
                if plex_pass self
                then Some "To terminate a stream, react with the stream number."
                else None |}
  end.

(** The [for stream in self._streams] loop of [message]. *)
Fixpoint add_streams (streams : list TautulliStreamInfo.t) (final_message : string)
    : M string :=
  match streams with
  | [] => mret final_message
  | stream :: rest =>
      title ← TautulliStreamInfo.title T stream;
      body ← TautulliStreamInfo.body F T stream;
      add_streams rest (final_message +:+ title +:+ newline +:+ body +:+ newline)
  end.

Definition message (self : t) : M string :=
  match _streams self with
  | [] => mret "No current activity."
  | _ =>
      final_message ← add_streams (_streams self) (_overview_message self +:+ newline);
      mret (final_message +:+ newline
            +:+ "To terminate a stream, react with the stream number.")
  end.

End WithHelpers.

End TautulliDataResponse.

(** ** TautulliConnector *)

Module TautulliConnector.

(** The fields the modelled methods read. *)
Record t : Type := mk {
  api : RawAPI;
  terminate_message : string;
  analytics : Analytics;
  plex_pass : bool;
  time_settings : pyval
}.

Definition _error_and_analytics (self : t) (error_message : exn)
    (function_name : string) : M unit :=
  _ ← logging.error error_message;
  lift (event (analytics self) "Error" function_name).

Definition is_plex_server_online (self : t) : result pyval :=
  status ← server_status (api self);
  py_get status "connected" (VBool false).

(** What [refresh_data] returns: the data wrapper, the number of active
    streams, the activity and whether Plex is online. *)
Definition refreshed : Type :=
  TautulliDataResponse.t * Z * option Activity.t * pyval.

Definition connection_lost : refreshed :=
  (TautulliDataResponse.init "**Connection lost.**" None false true, 0, None, VBool false).

(** [str(session.id)] *)
Definition str_id (session : Session.t) : result string :=
  Session.id session ≫= py_str.

(** The [for session in sessions] loop of [refresh_data].  [count] and
    [session_details] are the locals of that name; the two statements
    that update them open the [try] block and cannot raise, so they are
    bound ahead of it. *)
Fixpoint index_sessions (self : t) (sessions : list Session.t) (count : Z)
    (session_details : list TautulliStreamInfo.t)
    : M (Z * list TautulliStreamInfo.t) :=
  match sessions with
  | [] => mret (count, session_details)
  | session :: rest =>
      let count := count + 1 in
      let session_details := session_details ++ [TautulliStreamInfo.mk session count] in
      _ ← try_except
            (session_id ← lift (str_id session);
             setitem_session_ids count session_id)
            is_ValueError
            (fun err => _error_and_analytics self err "refresh_data (ValueError)");
      index_sessions self rest count session_details
  end.

Section WithFormatting.
Variable F : Formatting.

Definition refresh_data (self : t) : M refreshed :=
  data ← lift (activity (api self));
  if py_truthy data then
    text ← lift (py_str data);
    _ ← logging.debug ("JSON returned by GET request: " +:+ text);
    returned ← try_except
      (let activity := Activity.mk data (time_settings self) in
       sessions ← lift (Activity.sessions activity);
       let count := 0 in
       _ ← set_session_ids ∅;
       let session_details := [] in
       '(count, session_details) ← index_sessions self sessions count session_details;
       _ ← logging.debug ("Count: " +:+ string_of_Z count);
       overview_message ← lift (Activity.message F activity);
       online ← lift (is_plex_server_online self);
       mret (Some (TautulliDataResponse.init overview_message (Some session_details)
                     (plex_pass self) false,
                   count, Some activity, online)))
      is_KeyError
      (fun e => _ ← _error_and_analytics self e "refresh_data (KeyError)"; mret None);
    match returned with
    | Some answer => mret answer
    | None => mret connection_lost
    end
  else mret connection_lost.

End WithFormatting.

Definition stop_stream (self : t) (emoji : string) (stream_number : Z) : M string :=
  ids ← get_session_ids;
  match ids !! stream_number with
  | None => mret "**Invalid stream number.**"
  | Some session_id =>
      _ ← logging.info ("User attempting to stop session " +:+ emoji +:+ ", id "
                        +:+ session_id);
      returned ← try_except
        (stopped ← lift (terminate_session (api self) session_id (terminate_message self));
         if py_truthy stopped
         then mret (Some ("Stream " +:+ emoji +:+ " was stopped."))
         else mret (Some ("Stream " +:+ emoji +:+ " could not be stopped.")))
        is_Exception
        (fun e => _ ← _error_and_analytics self e "stop_stream"; mret None);
      match returned with
      | Some answer => mret answer
      | None => mret "Something went wrong."
      end
  end.

(** The [for library in self.api.library_names] loop of [get_library_id]:
    the id of the first library of that name, if there is one. *)
Fixpoint find_library_id (libraries : list pyval) (library_name : string)
    : result (option pyval) :=
  match libraries with
  | [] => mret None
  | library :: rest =>
      section_name ← py_get library "section_name" VNone;
      if py_eq_str section_name library_name
      then Some <$> py_get library "section_id" VNone
      else find_library_id rest library_name
  end.

Definition get_library_id (client : LibraryAPI) (library_name : string) : Logged pyval :=
  names ← unlogged (library_names client);
  libraries ← unlogged (py_iter names);
  found ← unlogged (find_library_id libraries library_name);
  match found with
  | Some section_id => mret section_id
  | None =>
      _ ← logged (LibraryError ("Could not get ID for library " +:+ library_name));
      mret VNone
  end.

Definition get_library_info (client : LibraryAPI) (library_name : string) : Logged pyval :=
  _ ← logged (LibraryInfo ("Collecting stats about library " +:+ library_name));
  library_id ← get_library_id client library_name;
  if negb (py_truthy library_id) then mret VNone
  else unlogged (get_library client library_id).

Definition get_library_item_count (client : LibraryAPI) (library_name : string)
    : Logged pyval :=
  library_info ← get_library_info client library_name;
  if negb (py_truthy library_info) then mret (VInt 0)
  else
    section_type ← unlogged (py_get library_info "section_type" VNone);
    if py_eq_str section_type "artist"
    then unlogged (py_get library_info "child_count" VNone)
    else unlogged (py_get library_info "count" (VInt 0)).

End TautulliConnector.

(** ** Vocabulary of the statements *)

(** The state in which a poll with a truthy payload starts its rebuild:
    the table is empty and the payload has been logged. *)
Definition rebuild_start (st : state) (text : string) : state :=
  {| session_ids := ∅;
     log := log st ++ [LogDebug ("JSON returned by GET request: " +:+ text)] |}.

(** [table] after the entries [count + 1], [count + 2], ... were written
    with the values [ids]. *)
Fixpoint assign (count : Z) (ids : list string) (table : gmap Z string)
    : gmap Z string :=
  match ids with
  | [] => table
  | sid :: ids' => assign (count + 1) ids' (<[count + 1 := sid]> table)
  end.

(** ** Sample inputs *)

Module Samples.

(** A stand-in for the formatting helpers that renders every value. *)
Definition formatting : Formatting := {|
  human_bitrate := fun value => (fun n => string_of_Z (n * 1024) +:+ " bps") <$> py_int value;
  sessions_message := fun n => Ok (string_of_Z n +:+ " streams");
  transcodes_message := fun n => Ok (string_of_Z n +:+ " transcodes");
  bandwidth_message := fun b => Ok b;
  lan_bandwidth_message := fun b => Ok ("(local: " +:+ b +:+ ")")
|}.

Definition record (session_id : pyval) : pyval :=
  VDict [("session_id", session_id); ("stream_container_decision", VStr "direct play")].

(** A record with no [session_id]. *)
Definition record_without_id : pyval :=
  VDict [("stream_container_decision", VStr "direct play")].

(** An object [repr()] renders and [str()] rejects with a [ValueError]. *)
Definition unprintable : pyval := VObj (Ok "<id>") (Raise ValueError).

Definition payload (records : list pyval) : pyval :=
  VDict [("stream_count", VInt (Z.of_nat (length records))); ("sessions", VList records)].

Definition connector (poll stopped : result pyval) (reported : result unit)
    : TautulliConnector.t :=
  TautulliConnector.mk
    {| activity := poll;
       server_status := Ok (VDict [("connected", VBool true)]);
       terminate_session := fun _ _ => stopped |}
    "Stopped by the administrator."
    {| event := fun _ _ => reported |}
    true VNone.

(** A session played at a negative offset, and one far beyond 53 bits. *)
Definition rewound : Session.t :=
  Session.mk (VDict [("view_offset", VInt (-1)); ("duration", VInt 2)]) VNone.

Definition endless : Session.t :=
  Session.mk (VDict [("view_offset", VInt (2 ^ 53 + 1)); ("duration", VInt 1)]) VNone.

Definition quarter : Session.t :=
  Session.mk (VDict [("view_offset", VStr "50"); ("duration", VInt 200)]) VNone.

Definition three_sessions : pyval :=
  payload [record (VStr "a"); record (VStr "b"); record (VStr "c")].

(** The second record has no [session_id]. *)
Definition broken_payload : pyval :=
  payload [record (VStr "a"); record_without_id; record (VStr "c")].

(** [str()] of the second id raises a [ValueError]. *)
Definition awkward_payload : pyval :=
  payload [record (VStr "a"); record unprintable; record (VStr "c")].

Definition earlier : state :=
  {| session_ids := {[ 1 := "old-1"; 2 := "old-2" ]}; log := [] |}.

End Samples.

(** ** Vocabulary of the further statements *)

(** The descriptors of [sessions], numbered from [count + 1] on. *)
Fixpoint numbered (count : Z) (sessions : list Session.t) : list TautulliStreamInfo.t :=
  match sessions with
  | [] => []
  | session :: rest =>
      TautulliStreamInfo.mk session (count + 1) :: numbered (count + 1) rest
  end.

(** Whether a session is one [transcode_count] counts. *)
Definition transcodes (session : Session.t) : bool :=
  or_default (Session.is_transcoding session) false.

(** A computation that leaves [session_ids] as it finds it. *)
Definition keeps_table {A : Type} (m : M A) : Prop :=
  forall st, session_ids (snd (m st)) = session_ids st.

(** A computation that returns, from every state. *)
Definition always_returns {A : Type} (m : M A) : Prop :=
  forall st, exists a, fst (m st) = Ok a.

(** A record of another name: the search of [get_library_id] passes it by. *)
Definition other_library (library_name : string) (library : pyval) : Prop :=
  exists section_name,
    py_get library "section_name" VNone = Ok section_name
    /\ py_eq_str section_name library_name = false.

Module Cases.

(** Helpers that render every value; the clock hands back the delay it
    was asked for. *)
Definition templates : Templates := {|
  datetime := Z;
  milliseconds_to_minutes_seconds := fun n => Ok (string_of_Z (n / 60000) +:+ "m");
  now_plus_milliseconds := fun n _ => Ok n;
  datetime_to_string := fun d template => Ok (string_of_Z d +:+ " " +:+ template);
  switcher := [("playing", ">"); ("paused", "=")];
  media_type_icons := [("episode", "tv"); ("movie", "film"); ("live", "air")];
  emoji_from_stream_number := fun n => Ok (":" +:+ string_of_Z n +:+ ":");
  session_title_message := fun emoji icon username media_type_icon title =>
    user ← py_str username;
    name ← py_str title;
    Ok (emoji +:+ " " +:+ icon +:+ " " +:+ user +:+ " " +:+ media_type_icon +:+ " " +:+ name);
  session_player_message := fun product player =>
    product ← py_str product;
    player ← py_str player;
    Ok (product +:+ " on " +:+ player);
  session_details_message := fun quality_profile bandwidth transcoding =>
    quality ← py_str quality_profile;
    Ok (quality +:+ " " +:+ bandwidth +:+ transcoding);
  session_progress_message := fun progress eta => Ok (progress +:+ " " +:+ eta)
|}.


(** A session that has not started, with no time settings at all. *)
Definition unstarted : Session.t :=
  Session.mk (VDict [("duration", VInt 3600000)]) VNone.

Definition shelves : pyval :=
  VList [VDict [("section_name", VStr "Films"); ("section_id", VInt 1)];
         VDict [("section_name", VStr "Music"); ("section_id", VInt 2)];
         VDict [("section_name", VStr "Music"); ("section_id", VInt 3)];
         VDict [("section_name", VStr "Drafts"); ("section_id", VInt 0)]].

Definition library_client : LibraryAPI := {|
  library_names := Ok shelves;
  get_library := fun section_id =>
    if py_truthy (or_default (py_sub section_id (VInt 2)) VNone)
    then Ok (VDict [("section_type", VStr "movie"); ("count", VInt 40)])
    else Ok (VDict [("section_type", VStr "artist"); ("count", VInt 7);
                    ("child_count", VInt 90)])
|}.

(** A response with two descriptors whose records are empty. *)
Definition bare_response : TautulliDataResponse.t :=
  TautulliDataResponse.init "2 streams"
    (Some [TautulliStreamInfo.mk (Session.mk (VDict []) VNone) 1;
           TautulliStreamInfo.mk (Session.mk VNone VNone) 2])
    true false.

(** Records with an id but no [stream_container_decision]. *)
Definition undecided (session_id : string) : pyval :=
  VDict [("session_id", VStr session_id)].

Definition undecided_payload : pyval :=
  VDict [("stream_count", VInt 2);
         ("sessions", VList [undecided "a"; undecided "b"])].


(** Two of three sessions are transcoded. *)
Definition mixed_payload : pyval :=
  Samples.payload
    [VDict [("session_id", VStr "a"); ("stream_container_decision", VStr "transcode")];
     Samples.record (VStr "b");
     VDict [("session_id", VStr "c"); ("stream_container_decision", VStr "transcode")]].

End Cases.

(** * Properties *)

(** ** The builtins on small inputs *)

Section Builtins.

Example int_of_string_accepts :
  int_of_string " 1_000 " = Some 1000
  /\ int_of_string "-12" = Some (-12)
  /\ int_of_string "+7" = Some 7
  /\ int_of_string "007" = Some 7.
Proof. repeat split; reflexivity. Qed.

Example int_of_string_rejects :
  int_of_string "" = None
  /\ int_of_string "abc" = None
  /\ int_of_string "1__0" = None
  /\ int_of_string "_1" = None
  /\ int_of_string "1_" = None
  /\ int_of_string "- 7" = None
  /\ int_of_string "12.5" = None.
Proof. repeat split; reflexivity. Qed.

Example py_str_of_a_payload :
  py_str (VDict [("a", VInt (-5)); ("b", VList [VStr "it's"; VNone; VBool true])])
  = Ok (String.concat "" ["{'a': -5, 'b': ["; String double_quote "it's";
                          String double_quote ", None, True]}"]).
Proof. reflexivity. Qed.

(** [1 / 3] is [0x15555555555555 * 2^-54], and [2^1024 - 1] is too large. *)
Example int_true_divide_rounds :
  int_true_divide 1 3 = Ok {| f_neg := false; f_mant := 6004799503160661; f_expo := -54 |}
  /\ int_true_divide 3 (2 ^ 1075) = Ok {| f_neg := false; f_mant := 2; f_expo := -1074 |}
  /\ int_true_divide (2 ^ 1024 - 1) 1 = Raise OverflowError
  /\ int_true_divide 1 0 = Raise ZeroDivisionError.
Proof. repeat split; reflexivity. Qed.

End Builtins.

(** ** Rounding and truncation of integer quotients *)

Section TrueDivision.

Lemma round_half_even_cases n d :
  0 <= n -> 0 < d ->
  round_half_even n d = n / d \/
  (round_half_even n d = n / d + 1 /\ d <= 2 * (n mod d)).
Proof.
  intros Hn Hd. unfold round_half_even.
  destruct (Z.ltb_spec (2 * (n mod d)) d) as [Hlt | Hge]; [by left |].
  destruct (d <? 2 * (n mod d)); [by right |].
  destruct (Z.even (n / d)); [by left | by right].
Qed.

(** With fewer than [s + 1] bits in the divisor, rounding at [s] extra
    binary places never reaches the next integer. *)
Lemma round_then_truncate a b s :
  0 <= a -> 0 < b -> 0 <= s -> b < 2 ^ (s + 1) ->
  round_half_even (a * 2 ^ s) b / 2 ^ s = a / b.
Proof.
  intros Ha Hb Hs Hbits.
  assert (HP : 0 < 2 ^ s) by (apply Z.pow_pos_nonneg; lia).
  rewrite Z.pow_add_r, Z.pow_1_r in Hbits by lia.
  set (P := 2 ^ s) in *.
  pose proof (Z.div_mod a b ltac:(lia)) as Ea.
  pose proof (Z.mod_pos_bound a b Hb) as Ba.
  pose proof (Z.div_mod (a * P) b ltac:(lia)) as En.
  pose proof (Z.mod_pos_bound (a * P) b Hb) as Bn.
  assert (Hq : 0 <= a / b) by (apply Z.div_pos; lia).
  set (q := a / b) in *. set (r := a mod b) in *.
  set (u := a * P / b) in *. set (v := (a * P) mod b) in *.
  assert (Hlo : q * P <= u) by nia.
  assert (Hhi : u < (q + 1) * P) by nia.
  destruct (round_half_even_cases (a * P) b) as [-> | [-> Hup]]; [nia | done | |].
  - fold u. symmetry. apply (Z.div_unique u P q (u - q * P)); lia.
  - fold u. fold v in Hup.
    assert (u + 1 < (q + 1) * P) by nia.
    symmetry. apply (Z.div_unique (u + 1) P q (u + 1 - q * P)); lia.
Qed.

(** A quotient below one half of the least binary place truncates to 0. *)
Lemma round_then_truncate_tiny a b s :
  0 <= a -> 0 <= s -> a < 2 ^ s -> 2 ^ (s + 1) <= b ->
  round_half_even (a * 2 ^ s) b / 2 ^ s = 0 /\ a / b = 0.
Proof.
  intros Ha Hs Hsmall Hbig.
  assert (HP : 0 < 2 ^ s) by (apply Z.pow_pos_nonneg; lia).
  rewrite Z.pow_add_r, Z.pow_1_r in Hbig by lia.
  set (P := 2 ^ s) in *.
  assert (Hb : 0 < b) by lia.
  pose proof (Z.div_mod (a * P) b ltac:(lia)) as En.
  pose proof (Z.mod_pos_bound (a * P) b Hb) as Bn.
  set (u := a * P / b) in *. set (v := (a * P) mod b) in *.
  assert (Hu : 0 <= u) by (apply Z.div_pos; nia).
  assert (Hu2 : 2 * u <= P - 1) by nia.
  split; [| apply Z.div_small; lia].
  destruct (round_half_even_cases (a * P) b) as [-> | [-> Hup]]; [nia | done | |];
    fold u; apply Z.div_small; [lia |].
  fold v in Hup. assert (1 <= a) by nia. lia.
Qed.

Lemma quotient_exponent_sound a b :
  0 < a -> 0 < b -> quotient_ge_pow2 a b (quotient_exponent a b) = true.
Proof.
  intros Ha Hb. unfold quotient_exponent.
  destruct (quotient_ge_pow2 a b (Z.log2 a - Z.log2 b)) eqn:E; [done |].
  pose proof (Z.log2_spec a Ha) as [La _].
  pose proof (Z.log2_spec b Hb) as [_ Lb].
  pose proof (Z.log2_nonneg a). pose proof (Z.log2_nonneg b).
  unfold quotient_ge_pow2.
  destruct (Z.leb_spec 0 (Z.log2 a - Z.log2 b - 1)) as [Hk | Hk].
  - apply Z.leb_le.
    replace (Z.log2 a) with (Z.log2 b + 1 + (Z.log2 a - Z.log2 b - 1)) in La at 1 by lia.
    rewrite Z.pow_add_r in La by lia.
    assert (0 < 2 ^ (Z.log2 a - Z.log2 b - 1)) by (apply Z.pow_pos_nonneg; lia).
    rewrite <- Z.add_1_r in Lb. nia.
  - apply Z.leb_le.
    replace (Z.succ (Z.log2 b)) with (Z.log2 a + (- (Z.log2 a - Z.log2 b - 1))) in Lb by lia.
    rewrite Z.pow_add_r in Lb by lia.
    assert (0 < 2 ^ (- (Z.log2 a - Z.log2 b - 1))) by (apply Z.pow_pos_nonneg; lia).
    nia.
Qed.

Lemma quotient_exponent_le a b :
  0 < a < 2 ^ 53 -> 0 < b -> quotient_exponent a b <= 52.
Proof.
  intros [Ha Ha53] Hb. unfold quotient_exponent.
  assert (Z.log2 a < 53) by (apply Z.log2_lt_pow2; lia).
  pose proof (Z.log2_nonneg b).
  destruct (quotient_ge_pow2 _ _ _); lia.
Qed.

(** On a dividend of at most 53 bits, [int(a / b)] is the floor quotient. *)
Lemma int_true_divide_floor a b :
  0 <= a < 2 ^ 53 -> 0 < b ->
  int_of_float <$> int_true_divide a b = Ok (a / b).
Proof.
  intros [Ha Ha53] Hb. unfold int_true_divide.
  destruct (Z.eqb_spec b 0) as [-> | _]; [lia |].
  destruct (Z.eqb_spec a 0) as [-> | Ha0]; [by rewrite Z.div_0_l by lia |].
  rewrite (Z.abs_eq a), (Z.abs_eq b) by lia.
  pose proof (quotient_exponent_sound a b ltac:(lia) Hb) as Hk.
  pose proof (quotient_exponent_le a b ltac:(lia) Hb) as Hk52.
  set (k := quotient_exponent a b) in *.
  destruct (Z.leb_spec 0 (Z.max (k - 52) (-1074))) as [He | He].
  - (* the quotient has exactly 53 bits: the divisor is 1 *)
    assert (k = 52) as Ek by lia. rewrite Ek in *.
    unfold quotient_ge_pow2 in Hk. simpl in Hk. apply Z.leb_le in Hk.
    assert (b = 1) as -> by lia.
    replace (Z.max (52 - 52) (-1074)) with 0 by lia.
    change (2 ^ 0) with 1. rewrite !Z.mul_1_r.
    assert (round_half_even a 1 = a) as ->.
    { unfold round_half_even. rewrite Z.mod_1_r, Z.div_1_r. done. }
    destruct (Z.leb_spec (2 ^ 1024) a) as [Hbig | _].
    { exfalso. assert (2 ^ 53 < 2 ^ 1024) by done. lia. }
    cbn. rewrite Z.div_1_r.
    destruct (a <? 0) eqn:Hneg; [apply Z.ltb_lt in Hneg; lia |].
    cbn. f_equal. lia.
  - cbn [andb].
    set (e := Z.max (k - 52) (-1074)) in *.
    unfold fmap, result_fmap, int_of_float. cbn [f_neg f_mant f_expo].
    destruct (Z.leb_spec 0 e) as [? | _]; [lia |].
    destruct (a <? 0) eqn:Hneg; [apply Z.ltb_lt in Hneg; lia |].
    destruct (b <? 0) eqn:Hnegb; [apply Z.ltb_lt in Hnegb; lia |].
    cbn [xorb]. f_equal.
    destruct (Z.lt_ge_cases b (2 ^ (- e + 1))) as [Hbits | Hbits].
    + apply round_then_truncate; lia.
    + assert (e = -1074 /\ k - 52 < -1074) as [Ee Hclamp].
      { destruct (Z.max_spec (k - 52) (-1074)) as [[? Em] | [? Em]]; fold e in Em.
        - split; [done |]. destruct (Z.eq_dec (k - 52) (-1074)); [| lia].
          exfalso. revert Hbits. rewrite Em.
          unfold quotient_ge_pow2 in Hk.
          destruct (Z.leb_spec 0 k); [lia |]. apply Z.leb_le in Hk.
          replace (- -1074 + 1) with (53 + - k) by lia.
          rewrite Z.pow_add_r by lia.
          assert (0 < 2 ^ (- k)) by (apply Z.pow_pos_nonneg; lia). nia.
        - exfalso. revert Hbits. rewrite Em.
          replace (- (k - 52) + 1) with (53 - k) by lia.
          unfold quotient_ge_pow2 in Hk.
          destruct (Z.leb_spec 0 k).
          + apply Z.leb_le in Hk.
            assert (2 ^ 53 = 2 ^ (53 - k) * 2 ^ k) as E53
              by (rewrite <- Z.pow_add_r by lia; f_equal; lia).
            assert (0 < 2 ^ k) by (apply Z.pow_pos_nonneg; lia).
            assert (0 < 2 ^ (53 - k)) by (apply Z.pow_pos_nonneg; lia). nia.
          + apply Z.leb_le in Hk.
            replace (53 - k) with (53 + - k) by lia.
            rewrite Z.pow_add_r by lia.
            assert (0 < 2 ^ (- k)) by (apply Z.pow_pos_nonneg; lia). nia. }
      rewrite Ee in *. change (- -1074) with 1074 in *.
      assert (2 ^ 53 < 2 ^ 1074) by done.
      destruct (round_then_truncate_tiny a b 1074) as [-> ->]; [lia .. | done].
Qed.

End TrueDivision.

(** ** The reconciliation loop *)

Section Reconciliation.
Import TautulliConnector.

(** One round of the loop that lets the loop go on: the session was
    indexed, or its id raised a [ValueError] that was reported. *)
Lemma index_sessions_ok_inv self session rest c det st c' det' st' :
  index_sessions self (session :: rest) c det st = (Ok (c', det'), st') ->
  exists st1,
    index_sessions self rest (c + 1)
      (det ++ [TautulliStreamInfo.mk session (c + 1)]) st1 = (Ok (c', det'), st')
    /\ ((exists sid, str_id session = Ok sid
          /\ st1 = {| session_ids := <[c + 1 := sid]> (session_ids st); log := log st |})
        \/ (str_id session = Raise ValueError
            /\ st1 = {| session_ids := session_ids st;
                        log := log st ++ [LogError ValueError] |})).
Proof.
  cbn [index_sessions]. unfold mbind at 1, M_bind at 1.
  unfold try_except, mbind, M_bind, lift, _error_and_analytics, setitem_session_ids,
    logging.error, logging.write.
  destruct (str_id session) as [sid | e] eqn:E.
  - intros H. eexists. split; [exact H |]. left. by exists sid.
  - destruct (is_ValueError e) eqn:Ev; [| done].
    destruct e; try done.
    destruct (event _ _ _) as [[] |]; [| done].
    intros H. eexists. split; [exact H |]. by right.
Qed.

(** The loop counts every session it is given. *)
Lemma index_sessions_count self sessions : forall c det st c' det' st',
  index_sessions self sessions c det st = (Ok (c', det'), st') ->
  c' = c + Z.of_nat (length sessions).
Proof.
  induction sessions as [| session rest IH]; intros c det st c' det' st' H.
  - cbn in H. injection H as <- _ _. cbn. lia.
  - apply index_sessions_ok_inv in H as (st1 & H & _).
    apply IH in H. cbn [length]. lia.
Qed.

(** The loop writes no key outside the range it counts through. *)
Lemma index_sessions_keys self sessions : forall c det st c' det' st' k,
  index_sessions self sessions c det st = (Ok (c', det'), st') ->
  is_Some (session_ids st' !! k) ->
  is_Some (session_ids st !! k) \/ c < k <= c'.
Proof.
  induction sessions as [| session rest IH]; intros c det st c' det' st' k H Hk.
  - cbn in H. injection H as <- _ <-. by left.
  - apply index_sessions_ok_inv in H as (st1 & H & Hst1).
    pose proof (index_sessions_count _ _ _ _ _ _ _ _ H) as Hc.
    destruct (IH _ _ _ _ _ _ _ H Hk) as [Hin | Hrange]; [| right; lia].
    destruct Hst1 as [(sid & _ & ->) | (_ & ->)]; cbn in Hin; [| by left].
    destruct (decide (c + 1 = k)) as [<- | Hne]; [right; lia |].
    rewrite lookup_insert_ne in Hin by done. by left.
Qed.

(** Sessions whose ids can be read are indexed one after the other. *)
Lemma index_sessions_readable self rest : forall readable ids c det st,
  Forall2 (fun session sid => str_id session = Ok sid) readable ids ->
  exists det',
    index_sessions self (readable ++ rest) c det st =
    index_sessions self rest (c + Z.of_nat (length readable)) det'
      {| session_ids := assign c ids (session_ids st); log := log st |}.
Proof.
  intros readable ids c det st Hall. revert c det st.
  induction Hall as [| session sid readable ids Hsid _ IH]; intros c det st.
  - exists det. cbn. rewrite Z.add_0_r. by destruct st.
  - cbn [app index_sessions]. unfold mbind at 1, M_bind at 1.
    unfold try_except, mbind, M_bind, lift, setitem_session_ids. rewrite Hsid.
    destruct (IH (c + 1) (det ++ [TautulliStreamInfo.mk session (c + 1)])
                {| session_ids := <[c + 1 := sid]> (session_ids st); log := log st |})
      as [det' ->].
    exists det'. cbn [length assign session_ids log].
    by replace (c + Z.of_nat (S (length readable))) with (c + 1 + Z.of_nat (length readable)) by lia.
Qed.

Lemma assign_lookup ids : forall c table k,
  assign c ids table !! k =
  if decide (c < k <= c + Z.of_nat (length ids))
  then ids !! Z.to_nat (k - c - 1)
  else table !! k.
Proof.
  induction ids as [| sid ids IH]; intros c table k; cbn [assign length].
  - case_decide; [lia | done].
  - rewrite IH. repeat case_decide; try lia.
    + replace (Z.to_nat (k - c - 1)) with (S (Z.to_nat (k - (c + 1) - 1))) by lia. done.
    + assert (k = c + 1) as -> by lia.
      rewrite lookup_insert_eq. by replace (c + 1 - c - 1) with 0 by lia.
    + rewrite lookup_insert_ne by lia. done.
Qed.

(** A poll that hands back an activity went through the whole rebuild. *)
Lemma refresh_data_success_inv F self st st' response count act online :
  refresh_data F self st = (Ok (response, count, Some act, online), st') ->
  exists data text sessions details st1,
    activity (api self) = Ok data
    /\ py_truthy data = true
    /\ py_str data = Ok text
    /\ act = Activity.mk data (time_settings self)
    /\ Activity.sessions act = Ok sessions
    /\ index_sessions self sessions 0 [] (rebuild_start st text) = (Ok (count, details), st1)
    /\ session_ids st' = session_ids st1
    /\ log st' = log st1 ++ [LogDebug ("Count: " +:+ string_of_Z count)].
Proof.
  unfold refresh_data, rebuild_start.
  unfold mbind at 1, M_bind at 1, lift at 1.
  destruct (activity (api self)) as [data |]; [| done].
  destruct (py_truthy data) eqn:Htruthy; [| done].
  unfold mbind at 1, M_bind at 1, lift at 1.
  destruct (py_str data) as [text |] eqn:Hstr; [| done].
  unfold mbind at 1, M_bind at 1, logging.debug at 1, logging.write at 1.
  unfold mbind at 1, M_bind at 1, try_except.
  unfold mbind at 1, M_bind at 1, lift at 1.
  destruct (Activity.sessions _) as [sessions |] eqn:Hsessions.
  2:{ unfold _error_and_analytics, mbind, M_bind, mret, M_ret, lift, logging.error, logging.write.
      cbn. repeat case_match; done. }
  unfold mbind at 1, M_bind at 1, set_session_ids at 1. cbn [session_ids log].
  unfold mbind at 1, M_bind at 1.
  destruct (index_sessions _ _ _ _ _) as [[[c details] | e] st1] eqn:Hloop.
  2:{ unfold _error_and_analytics, mbind, M_bind, mret, M_ret, lift, logging.error, logging.write.
      cbn. repeat case_match; done. }
  unfold _error_and_analytics, mbind, M_bind, mret, M_ret, lift, logging.debug,
    logging.error, logging.write.
  cbn. intros H.
  exists data, text, sessions, details, st1.
  repeat case_match; simplify_eq; try done.
Qed.

End Reconciliation.

(** ** Derived fields of a session and of an activity *)

Section DerivedFields.

(** A record at a negative offset: the coerced position is negative and
    the quotient is truncated towards zero, not floored. *)
Lemma C8_counterexample :
  exists position duration,
    Session.location_milliseconds Samples.rewound = Ok position
    /\ Session.duration_milliseconds Samples.rewound = Ok duration
    /\ position < 0 /\ 0 < duration
    /\ Session.progress_percentage Samples.rewound = Ok 0
    /\ Session.progress_percentage Samples.rewound <> Ok (position / duration).
Proof. exists (-1), 2. repeat split; done. Qed.

(** Beyond 53 bits the quotient is rounded before it is truncated. *)
Lemma progress_percentage_beyond_53_bits :
  Session.location_milliseconds Samples.endless = Ok (2 ^ 53 + 1)
  /\ Session.duration_milliseconds Samples.endless = Ok 1
  /\ Session.progress_percentage Samples.endless = Ok (2 ^ 53)
  /\ (2 ^ 53 + 1) / 1 = 2 ^ 53 + 1.
Proof. repeat split; done. Qed.

(** C8, amended.  For every session, [progress_percentage] is 0 when the
    coerced duration is 0, and is [floor (position / duration)], the
    plain integer ratio, when the coerced duration is positive and the
    coerced position lies in [0, 2^53). *)
Theorem C8_progress_percentage_floor (s : Session.t) (position duration : Z) :
  Session.location_milliseconds s = Ok position ->
  Session.duration_milliseconds s = Ok duration ->
  (duration = 0 -> Session.progress_percentage s = Ok 0)
  /\ (0 < duration -> 0 <= position < 2 ^ 53 ->
      Session.progress_percentage s = Ok (position / duration)).
Proof.
  intros Hposition Hduration. unfold Session.progress_percentage.
  rewrite Hduration, Hposition. cbn [mbind result_bind].
  split.
  - intros ->. done.
  - intros Hpos Hrange.
    destruct (Z.eqb_spec duration 0) as [-> | _]; [lia |].
    pose proof (int_true_divide_floor position duration Hrange Hpos) as H.
    destruct (int_true_divide position duration) as [q |]; [| done].
    cbn in H. injection H as <-. done.
Qed.

Lemma C8_witness :
  Session.location_milliseconds Samples.quarter = Ok 50
  /\ Session.duration_milliseconds Samples.quarter = Ok 200
  /\ Session.progress_percentage Samples.quarter = Ok (50 / 200).
Proof.
  split; [reflexivity |]. split; [reflexivity |].
  apply (C8_progress_percentage_floor Samples.quarter 50 200);
    [reflexivity | reflexivity | lia | split; [lia | reflexivity]].
Defined.

(** The coerced fields themselves: the raw value through [int()], or 0. *)
Lemma milliseconds_coerced (d : list (string * pyval)) (ts : pyval) :
  let s := Session.mk (VDict d) ts in
  Session.duration_milliseconds s
    = Ok (or_default (py_int (default (VInt 0) (dict_lookup d "duration"))) 0)
  /\ Session.location_milliseconds s
    = Ok (or_default (py_int (default (VInt 0) (dict_lookup d "view_offset"))) 0).
Proof. split; cbn; by destruct (dict_lookup d _). Qed.

(** A bandwidth field that is text makes the subtraction raise. *)
Lemma C6_counterexample :
  Activity.wan_bandwidth Samples.formatting
    (Activity.mk (VDict [("total_bandwidth", VStr "unknown")]) VNone)
  = Raise TypeError
  /\ Activity.wan_bandwidth Samples.formatting
    (Activity.mk (VDict [("total_bandwidth", VStr "2048"); ("lan_bandwidth", VStr "1024")])
       VNone)
  = Raise TypeError.
Proof. split; reflexivity. Qed.

(** C6, amended.  For every payload whose [total_bandwidth] and
    [lan_bandwidth] fields are integers or absent (an absent field reads
    as 0), [wan_bandwidth] subtracts the two raw values and coerces the
    difference to a displayable unit, yielding [None] if that coercion
    fails; on these payloads it does not raise. *)
Theorem C6_wan_bandwidth_on_integers (F : Formatting) (d : list (string * pyval))
    (ts : pyval) (total lan : Z) :
  as_integer (default (VInt 0) (dict_lookup d "total_bandwidth")) = Some total ->
  as_integer (default (VInt 0) (dict_lookup d "lan_bandwidth")) = Some lan ->
  Activity.wan_bandwidth F (Activity.mk (VDict d) ts)
  = Ok (match human_bitrate F (VInt (total - lan)) with
        | Ok text => Some text
        | Raise _ => None
        end).
Proof.
  intros Htotal Hlan. unfold Activity.wan_bandwidth. cbn.
  unfold py_sub.
  destruct (dict_lookup d "total_bandwidth"); destruct (dict_lookup d "lan_bandwidth");
    cbn in *; rewrite ?Htotal, ?Hlan; simplify_eq; cbn;
    by destruct (human_bitrate F _).
Qed.

Lemma C6_witness :
  Activity.wan_bandwidth Samples.formatting
    (Activity.mk (VDict [("total_bandwidth", VInt 9)]) VNone)
  = Ok (Some "9216 bps").
Proof.
  apply (C6_wan_bandwidth_on_integers Samples.formatting
           [("total_bandwidth", VInt 9)] VNone 9 0); reflexivity.
Defined.

End DerivedFields.

(** ** Terminating a stream by its index *)

Section Termination.
Import TautulliConnector.

(** What [stop_stream] answers, case by case, and that it leaves the
    table alone. *)
Lemma stop_stream_cases self emoji n st :
  session_ids (snd (stop_stream self emoji n st)) = session_ids st
  /\ fst (stop_stream self emoji n st) =
     match session_ids st !! n with
     | None => Ok "**Invalid stream number.**"
     | Some sid =>
         match terminate_session (api self) sid (terminate_message self) with
         | Ok stopped =>
             if py_truthy stopped
             then Ok ("Stream " +:+ emoji +:+ " was stopped.")
             else Ok ("Stream " +:+ emoji +:+ " could not be stopped.")
         | Raise _ =>
             match event (analytics self) "Error" "stop_stream" with
             | Ok _ => Ok "Something went wrong."
             | Raise e => Raise e
             end
         end
     end.
Proof.
  unfold stop_stream, get_session_ids, try_except, _error_and_analytics, mbind, M_bind,
    mret, M_ret, lift, logging.info, logging.error, logging.write.
  destruct (session_ids st !! n) as [sid |]; [| done].
  cbn [session_ids log].
  destruct (terminate_session _ _ _) as [stopped | e].
  - by destruct (py_truthy stopped).
  - cbn. by destruct (event _ _ _) as [[] |].
Qed.

Lemma stop_stream_rejected_iff self emoji n st :
  fst (stop_stream self emoji n st) = Ok "**Invalid stream number.**"
  <-> session_ids st !! n = None.
Proof.
  destruct (stop_stream_cases self emoji n st) as [_ ->].
  destruct (session_ids st !! n) as [sid |]; [| done].
  split; [| done].
  destruct (terminate_session _ _ _) as [stopped |].
  - destruct (py_truthy stopped); cbn; done.
  - destruct (event _ _ _); done.
Qed.

(** The index is known and the request raises, and so does the report of
    that failure: [stop_stream] raises instead of answering. *)
Lemma C5_counterexample :
  let self := Samples.connector (Ok VNone) (Raise (OtherError "ConnectionError"))
                (Raise (OtherError "Timeout")) in
  session_ids Samples.earlier !! 1 = Some "old-1"
  /\ terminate_session (api self) "old-1" (terminate_message self)
     = Raise (OtherError "ConnectionError")
  /\ fst (stop_stream self ":one:" 1 Samples.earlier) = Raise (OtherError "Timeout")
  /\ fst (stop_stream self ":one:" 1 Samples.earlier) <> Ok "Something went wrong.".
Proof. repeat split; done. Qed.

(** C5, amended.  [stop_stream(index)] returns the invalid-stream-number
    answer if and only if [index] is not a key of the table.  For a known
    index it returns "was stopped" when the terminate request answers a
    truthy value, "could not be stopped" when it answers a falsy one, and
    "Something went wrong." when the request raises and the analytics
    report of that failure returns; if that report raises, its exception
    leaves [stop_stream].  In every case the table is unchanged. *)
Theorem C5_stop_stream_outcomes (self : t) (emoji : string) (n : Z) (st : state) :
  session_ids (snd (stop_stream self emoji n st)) = session_ids st
  /\ (fst (stop_stream self emoji n st) = Ok "**Invalid stream number.**"
      <-> session_ids st !! n = None)
  /\ forall sid, session_ids st !! n = Some sid ->
       fst (stop_stream self emoji n st) =
       match terminate_session (api self) sid (terminate_message self) with
       | Ok stopped =>
           if py_truthy stopped
           then Ok ("Stream " +:+ emoji +:+ " was stopped.")
           else Ok ("Stream " +:+ emoji +:+ " could not be stopped.")
       | Raise _ =>
           match event (analytics self) "Error" "stop_stream" with
           | Ok _ => Ok "Something went wrong."
           | Raise e => Raise e
           end
       end.
Proof.
  split; [apply stop_stream_cases |].
  split; [apply stop_stream_rejected_iff |].
  intros sid Hsid. destruct (stop_stream_cases self emoji n st) as [_ ->].
  by rewrite Hsid.
Qed.

Lemma C5_witness :
  let self := Samples.connector (Ok VNone) (Ok (VBool false)) (Ok tt) in
  fst (stop_stream self ":two:" 2 Samples.earlier)
  = Ok "Stream :two: could not be stopped.".
Proof.
  intros self.
  exact (proj2 (proj2 (C5_stop_stream_outcomes self ":two:" 2 Samples.earlier))
           "old-2" eq_refl).
Defined.

End Termination.

(** ** Polling *)

Section Polling.
Import TautulliConnector.

(** Runs [refresh_data] on a truthy payload up to the reading of the
    sessions, given what the API answered and how the payload is logged. *)
Ltac enter_poll Hdata Htruthy Htext :=
  unfold refresh_data;
  unfold mbind at 1, M_bind at 1, lift at 1; rewrite Hdata, Htruthy;
  unfold mbind at 1, M_bind at 1, lift at 1; rewrite Htext;
  unfold mbind at 1, M_bind at 1, logging.debug at 1, logging.write at 1;
  unfold mbind at 1, M_bind at 1, try_except;
  unfold mbind at 1, M_bind at 1, lift at 1.

(** Empties the table and stops in front of the loop. *)
Ltac enter_loop :=
  unfold mbind at 1, M_bind at 1, set_session_ids at 1; cbn [session_ids log];
  unfold mbind at 1, M_bind at 1.

(** Runs what is left once the loop is done. *)
Ltac leave_loop :=
  unfold _error_and_analytics, mbind, M_bind, mret, M_ret, lift, logging.debug,
    logging.error, logging.write;
  cbn [session_ids log].

(** A falsy payload: nothing is touched, not even the table. *)
Lemma refresh_data_falsy F self st data :
  activity (api self) = Ok data -> py_truthy data = false ->
  refresh_data F self st = (Ok connection_lost, st).
Proof.
  intros Hdata Hfalsy. unfold refresh_data, mbind, M_bind, lift.
  by rewrite Hdata, Hfalsy.
Qed.


(** The table of [Samples.earlier] holds index 1, the poll fails on an
    empty payload, and the table still holds it: the next
    [stop_stream(1)] goes through. *)
Lemma C1_counterexample :
  let self := Samples.connector (Ok VNone) (Ok (VBool true)) (Ok tt) in
  let after := snd (refresh_data Samples.formatting self Samples.earlier) in
  fst (refresh_data Samples.formatting self Samples.earlier) = Ok connection_lost
  /\ session_ids after !! 1 = Some "old-1"
  /\ session_ids after <> ∅
  /\ fst (stop_stream self ":one:" 1 after) = Ok "Stream :one: was stopped."
  /\ fst (stop_stream self ":one:" 1 after) <> Ok "**Invalid stream number.**".
Proof.
  cbn zeta. split; [done |]. split; [done |]. split; [| done].
  intros H. apply (f_equal (fun m => m !! 1)) in H. done.
Qed.

(** C1, amended.  After a poll in which the monitoring API returns an
    empty or falsy payload, [refresh_data] answers the connection-lost
    result with zero streams and leaves [session_ids] as it was before the
    poll, so a following [stop_stream(1)] is rejected if and only if 1 was
    not a key of the table before the failed poll. *)
Theorem C1_failed_poll_keeps_table (F : Formatting) (self : t) (st : state)
    (data : pyval) (emoji : string) :
  activity (api self) = Ok data ->
  py_truthy data = false ->
  let after := snd (refresh_data F self st) in
  fst (refresh_data F self st) = Ok connection_lost
  /\ session_ids after = session_ids st
  /\ (fst (stop_stream self emoji 1 after) = Ok "**Invalid stream number.**"
      <-> session_ids st !! 1 = None).
Proof.
  intros Hdata Hfalsy after. subst after.
  rewrite (refresh_data_falsy F self st data Hdata Hfalsy). cbn [fst snd].
  split; [done |]. split; [done |]. apply stop_stream_rejected_iff.
Qed.

Lemma C1_witness :
  let self := Samples.connector (Ok (VDict [])) (Ok (VBool true)) (Ok tt) in
  let st := {| session_ids := {[ 2 := "old-2" ]}; log := [] |} in
  fst (stop_stream self ":one:" 1 (snd (refresh_data Samples.formatting self st)))
  = Ok "**Invalid stream number.**".
Proof.
  intros self st.
  apply (C1_failed_poll_keeps_table Samples.formatting self st (VDict []) ":one:");
    reflexivity.
Defined.







(** Three sessions, [str()] of the second id raises a [ValueError]: the
    poll succeeds, the second session is left out and the third one is
    entered under 3, not under 2. *)
Lemma C3_counterexample :
  let self := Samples.connector (Ok Samples.awkward_payload) (Ok VNone) (Ok tt) in
  let outcome := refresh_data Samples.formatting self Samples.earlier in
  let A := Session.mk (Samples.record (VStr "a")) VNone in
  let B := Session.mk (Samples.record Samples.unprintable) VNone in
  let C := Session.mk (Samples.record (VStr "c")) VNone in
  (exists response online,
      fst outcome = Ok (response, 3, Some (Activity.mk Samples.awkward_payload VNone), online))
  /\ Activity.sessions (Activity.mk Samples.awkward_payload VNone) = Ok [A; B; C]
  /\ str_id A = Ok "a" /\ str_id B = Raise ValueError /\ str_id C = Ok "c"
  /\ session_ids (snd outcome) = {[ 1 := "a"; 3 := "c" ]}
  /\ session_ids (snd outcome) <> {[ 1 := "a"; 2 := "c" ]}.
Proof.
  cbn zeta. split; [by eexists _, _ |]. do 5 (split; [done |]).
  intros H. apply (f_equal (fun m => m !! 3)) in H. done.
Qed.

(** C3, amended.  A session for which [str(session.id)] raises a
    [ValueError] is skipped when the analytics report of that error
    returns: the error is logged, the loop goes on with the sessions after
    it and the snapshot is not given up.  Every session that is indexed
    gets its position in the payload as its index, so the skipped session
    leaves a gap: for sessions [A, B, C] in that order where reading the id
    of [B] raises a [ValueError], with the overview rendering and the
    server status answered, the poll succeeds, the three sessions are
    counted and described, and the table is exactly [{1: A.id, 3: C.id}].
    When the report raises instead, the poll is given up at [B]: the table
    is [{1: A.id}], and the poll raises what the report raised or, for a
    [KeyError], answers connection lost once the report of that one
    returns. *)
Theorem C3_skipped_session_keeps_its_index (F : Formatting) (self : t) (st : state)
    (data : pyval) (text : string) (A B C : Session.t) (ia ic : string)
    (overview : string) (online : pyval) :
  let act := Activity.mk data (time_settings self) in
  activity (api self) = Ok data ->
  py_truthy data = true ->
  py_str data = Ok text ->
  Activity.sessions act = Ok [A; B; C] ->
  str_id A = Ok ia ->
  str_id B = Raise ValueError ->
  str_id C = Ok ic ->
  Activity.message F act = Ok overview ->
  is_plex_server_online self = Ok online ->
  match event (analytics self) "Error" "refresh_data (ValueError)" with
  | Ok _ =>
      fst (refresh_data F self st)
      = Ok (TautulliDataResponse.init overview
              (Some [TautulliStreamInfo.mk A 1; TautulliStreamInfo.mk B 2;
                     TautulliStreamInfo.mk C 3])
              (plex_pass self) false,
            3, Some act, online)
      /\ session_ids (snd (refresh_data F self st)) = {[ 1 := ia; 3 := ic ]}
      /\ log (snd (refresh_data F self st))
         = log st ++ [LogDebug ("JSON returned by GET request: " +:+ text);
                      LogError ValueError;
                      LogDebug ("Count: " +:+ string_of_Z 3)]
  | Raise e =>
      fst (refresh_data F self st)
      = (if is_KeyError e
         then match event (analytics self) "Error" "refresh_data (KeyError)" with
              | Ok _ => Ok connection_lost
              | Raise e' => Raise e'
              end
         else Raise e)
      /\ session_ids (snd (refresh_data F self st)) = {[ 1 := ia ]}
  end.
Proof.
  intros act Hdata Htruthy Htext Hsessions HA HB HC Hoverview Honline.
  destruct (refresh_data F self st) as [outcome after] eqn:Hpoll. cbn [fst snd].
  revert Hpoll. enter_poll Hdata Htruthy Htext. fold act. rewrite Hsessions. enter_loop.
  cbn [index_sessions].
  unfold try_except, _error_and_analytics, mbind, M_bind, mret, M_ret, lift,
    setitem_session_ids, logging.debug, logging.error, logging.write.
  rewrite HA, HB. cbn [is_ValueError session_ids log fst snd].
  destruct (event (analytics self) "Error" "refresh_data (ValueError)") as [[] | e].
  - rewrite HC, Hoverview, Honline. cbn [fst snd session_ids log].
    intros [= <- <-]. cbn [session_ids log].
    split; [done |]. split; [done |]. by rewrite <- !app_assoc.
  - destruct (is_KeyError e).
    + cbn [fst snd session_ids log].
      destruct (event (analytics self) "Error" "refresh_data (KeyError)") as [[] |];
        by intros [= <- <-].
    + by intros [= <- <-].
Qed.

Lemma C3_witness :
  let self := Samples.connector (Ok Samples.awkward_payload) (Ok VNone) (Ok tt) in
  session_ids (snd (refresh_data Samples.formatting self Samples.earlier))
  = {[ 1 := "a"; 3 := "c" ]}.
Proof.
  intros self.
  exact (proj1 (proj2 (C3_skipped_session_keeps_its_index Samples.formatting self
                         Samples.earlier Samples.awkward_payload _
                         (Session.mk (Samples.record (VStr "a")) VNone)
                         (Session.mk (Samples.record Samples.unprintable) VNone)
                         (Session.mk (Samples.record (VStr "c")) VNone)
                         "a" "c" _ (VBool true)
                         eq_refl eq_refl eq_refl eq_refl eq_refl eq_refl eq_refl
                         eq_refl eq_refl))).
Defined.

(** A poll on a payload that can be logged, whose sessions all have
    readable ids, whose overview renders and whose server status is
    answered, succeeds: it counts the sessions and installs their ids. *)
Lemma refresh_data_succeeds F self st data text sessions ids overview online :
  activity (api self) = Ok data -> py_truthy data = true -> py_str data = Ok text ->
  Activity.sessions (Activity.mk data (time_settings self)) = Ok sessions ->
  Forall2 (fun session sid => str_id session = Ok sid) sessions ids ->
  Activity.message F (Activity.mk data (time_settings self)) = Ok overview ->
  is_plex_server_online self = Ok online ->
  exists details,
    refresh_data F self st =
    (Ok (TautulliDataResponse.init overview (Some details) (plex_pass self) false,
         Z.of_nat (length sessions),
         Some (Activity.mk data (time_settings self)), online),
     {| session_ids := assign 0 ids ∅;
        log := log st ++ [LogDebug ("JSON returned by GET request: " +:+ text)]
                 ++ [LogDebug ("Count: " +:+ string_of_Z (Z.of_nat (length sessions)))] |}).
Proof.
  intros Hdata Htruthy Htext Hsessions Hreadable Hmessage Honline.
  enter_poll Hdata Htruthy Htext. rewrite Hsessions. enter_loop.
  destruct (index_sessions_readable self [] sessions ids 0 []
              {| session_ids := ∅;
                 log := log st ++ [LogDebug ("JSON returned by GET request: " +:+ text)] |}
              Hreadable) as [details Hloop].
  rewrite app_nil_r in Hloop. rewrite Hloop. cbn [index_sessions session_ids log].
  leave_loop. rewrite Hmessage, Honline, <- app_assoc.
  by exists details.
Qed.

(** C4.  For every successful poll whose payload holds the sessions
    [A, B, C] in that order, all with readable ids, [refresh_data]
    rebuilds the table to be exactly [{1: A.id, 2: B.id, 3: C.id}]:
    consecutive indices from 1, in the order of the payload. *)
Theorem C4_sessions_indexed_in_payload_order (F : Formatting) (self : t) (st st' : state)
    (response : TautulliDataResponse.t) (count : Z) (act : Activity.t) (online : pyval)
    (A B C : Session.t) (ia ib ic : string) :
  refresh_data F self st = (Ok (response, count, Some act, online), st') ->
  Activity.sessions act = Ok [A; B; C] ->
  str_id A = Ok ia ->
  str_id B = Ok ib ->
  str_id C = Ok ic ->
  session_ids st' = {[ 1 := ia; 2 := ib; 3 := ic ]}.
Proof.
  intros Hpoll Hsessions HA HB HC.
  apply refresh_data_success_inv in Hpoll
    as (data & text & sessions & details & st1 & _ & _ & _ & -> & Hs & Hloop & -> & _).
  rewrite Hsessions in Hs. injection Hs as <-.
  apply index_sessions_ok_inv in Hloop as (sa & Hloop & [(? & E & ->) | (E & _)]);
    rewrite HA in E; [injection E as <- | done].
  apply index_sessions_ok_inv in Hloop as (sb & Hloop & [(? & E & ->) | (E & _)]);
    rewrite HB in E; [injection E as <- | done].
  apply index_sessions_ok_inv in Hloop as (sc & Hloop & [(? & E & ->) | (E & _)]);
    rewrite HC in E; [injection E as <- | done].
  cbn in Hloop. injection Hloop as _ _ <-. reflexivity.
Qed.

Lemma C4_witness :
  let self := Samples.connector (Ok Samples.three_sessions) (Ok VNone) (Ok tt) in
  session_ids (snd (refresh_data Samples.formatting self Samples.earlier))
  = {[ 1 := "a"; 2 := "b"; 3 := "c" ]}.
Proof.
  intros self.
  assert (exists response online,
            refresh_data Samples.formatting self Samples.earlier
            = (Ok (response, 3, Some (Activity.mk Samples.three_sessions VNone), online),
               snd (refresh_data Samples.formatting self Samples.earlier)))
    as (response & online & Hpoll) by (eexists _, _; reflexivity).
  exact (C4_sessions_indexed_in_payload_order Samples.formatting self
           Samples.earlier _ response 3 _ online
           (Session.mk (Samples.record (VStr "a")) VNone)
           (Session.mk (Samples.record (VStr "b")) VNone)
           (Session.mk (Samples.record (VStr "c")) VNone)
           "a" "b" "c" Hpoll eq_refl eq_refl eq_refl eq_refl).
Defined.

(** C9.  On every successful poll the number of active streams that
    [refresh_data] returns is the number of raw session records of the
    payload, whether or not each of them was entered in the table: the
    keys of the rebuilt table lie between 1 and that count, and a skipped
    session is counted all the same. *)
Theorem C9_count_is_number_of_records (F : Formatting) (self : t) (st st' : state)
    (response : TautulliDataResponse.t) (count : Z) (act : Activity.t) (online : pyval) :
  refresh_data F self st = (Ok (response, count, Some act, online), st') ->
  exists data records,
    activity (api self) = Ok data
    /\ py_get data "sessions" (VList []) ≫= py_iter = Ok records
    /\ count = Z.of_nat (length records)
    /\ forall k, is_Some (session_ids st' !! k) -> 1 <= k <= count.
Proof.
  intros Hpoll.
  apply refresh_data_success_inv in Hpoll
    as (data & text & sessions & details & st1 & Hdata & _ & _ & -> & Hs & Hloop & -> & _).
  unfold Activity.sessions in Hs. cbn [Activity._data Activity._time_settings] in Hs.
  destruct (py_get data "sessions" (VList [])) as [raw |] eqn:Hraw; [| done].
  cbn in Hs. destruct (py_iter raw) as [records |] eqn:Hrecords; [| done].
  cbn in Hs. injection Hs as <-.
  exists data, records. split; [done |]. split; [by rewrite Hraw |].
  pose proof (index_sessions_count _ _ _ _ _ _ _ _ Hloop) as Hcount.
  rewrite length_map in Hcount. split; [lia |].
  intros k Hk.
  destruct (index_sessions_keys _ _ _ _ _ _ _ _ k Hloop Hk) as [Hempty | Hrange]; [| lia].
  cbn in Hempty. rewrite lookup_empty in Hempty. by destruct Hempty.
Qed.

Lemma C9_witness :
  let self := Samples.connector (Ok Samples.awkward_payload) (Ok VNone) (Ok tt) in
  exists response online after,
    refresh_data Samples.formatting self Samples.earlier
    = (Ok (response, 3, Some (Activity.mk Samples.awkward_payload VNone), online), after)
    /\ after = snd (refresh_data Samples.formatting self Samples.earlier)
    /\ session_ids after !! 2 = None
    /\ exists data records,
         activity (api self) = Ok data
         /\ py_get data "sessions" (VList []) ≫= py_iter = Ok records
         /\ 3 = Z.of_nat (length records)
         /\ forall k, is_Some (session_ids after !! k) -> 1 <= k <= 3.
Proof.
  intros self.
  assert (exists response online,
            refresh_data Samples.formatting self Samples.earlier
            = (Ok (response, 3, Some (Activity.mk Samples.awkward_payload VNone), online),
               snd (refresh_data Samples.formatting self Samples.earlier)))
    as (response & online & Hpoll) by (eexists _, _; reflexivity).
  exists response, online, (snd (refresh_data Samples.formatting self Samples.earlier)).
  split; [exact Hpoll |]. split; [reflexivity |]. split; [reflexivity |].
  exact (C9_count_is_number_of_records Samples.formatting self Samples.earlier _
           response 3 _ online Hpoll).
Defined.

(** C10.  If a truthy payload has no ['sessions'] key, [Activity.sessions]
    is the empty list and [refresh_data] treats the poll as a success:
    with the overview rendered and the server status answered, it returns
    a stream count of 0 with the activity, and it installs an empty table,
    rather than answering a connectivity or construction failure. *)
Theorem C10_missing_sessions_key (F : Formatting) (self : t) (st : state)
    (d : list (string * pyval)) (text overview : string) (online : pyval) :
  let act := Activity.mk (VDict d) (time_settings self) in
  activity (api self) = Ok (VDict d) ->
  py_truthy (VDict d) = true ->
  dict_lookup d "sessions" = None ->
  py_str (VDict d) = Ok text ->
  Activity.message F act = Ok overview ->
  is_plex_server_online self = Ok online ->
  Activity.sessions act = Ok []
  /\ fst (refresh_data F self st)
     = Ok (TautulliDataResponse.init overview (Some []) (plex_pass self) false,
           0, Some act, online)
  /\ session_ids (snd (refresh_data F self st)) = ∅.
Proof.
  intros act Hdata Htruthy Hmissing Htext Hmessage Honline.
  assert (Activity.sessions act = Ok []) as Hsessions.
  { unfold Activity.sessions. cbn. by rewrite Hmissing. }
  split; [done |].
  unfold refresh_data, try_except, mbind, M_bind, mret, M_ret, lift, set_session_ids,
    logging.debug, logging.write.
  rewrite Hdata, Htruthy, Htext. fold act. rewrite Hsessions.
  cbn [index_sessions mret M_ret session_ids log].
  unfold mret, M_ret. rewrite Hmessage, Honline. done.
Qed.

Lemma C10_witness :
  let self := Samples.connector (Ok (VDict [("stream_count", VInt 0)])) (Ok VNone) (Ok tt) in
  fst (refresh_data Samples.formatting self Samples.earlier)
  = Ok (TautulliDataResponse.init " | 0 bps (local: 0 bps)" (Some []) true false, 0,
        Some (Activity.mk (VDict [("stream_count", VInt 0)]) VNone), VBool true)
  /\ session_ids (snd (refresh_data Samples.formatting self Samples.earlier)) = ∅.
Proof.
  intros self.
  exact (proj2 (C10_missing_sessions_key Samples.formatting self Samples.earlier
                  [("stream_count", VInt 0)] _ " | 0 bps (local: 0 bps)" (VBool true)
                  eq_refl eq_refl eq_refl eq_refl eq_refl eq_refl)).
Defined.

End Polling.

(** * Further properties *)

(** ** Polls, beyond the claims *)

Section MorePolling.
Import TautulliConnector.

(** All the monad does in [refresh_data], unfolded at once. *)
Ltac run_poll :=
  unfold refresh_data, try_except, _error_and_analytics, mbind, M_bind, mret, M_ret, lift,
    set_session_ids, logging.debug, logging.error, logging.write;
  cbn [session_ids log].

(** The loop reads the table it is given through writes only: from two
    states it ends alike and leaves the tables as alike as they were. *)
Lemma index_sessions_same_table self sessions : forall c det st1 st2,
  session_ids st1 = session_ids st2 ->
  fst (index_sessions self sessions c det st1) = fst (index_sessions self sessions c det st2)
  /\ session_ids (snd (index_sessions self sessions c det st1))
     = session_ids (snd (index_sessions self sessions c det st2)).
Proof.
  induction sessions as [| session rest IH]; intros c det st1 st2 Hsame; [done |].
  cbn [index_sessions]. unfold mbind at 1 3 5 7, M_bind at 1 3 5 7.
  unfold try_except, mbind, M_bind, lift, _error_and_analytics, setitem_session_ids,
    logging.error, logging.write.
  destruct (str_id session) as [sid | e].
  - apply IH. cbn. by rewrite Hsame.
  - destruct (is_ValueError e); [| done]. cbn [session_ids log].
    destruct (event _ _ _) as [[] |]; [| done]. by apply IH.
Qed.

(** X1.  A poll whose payload is truthy, can be logged and lists its
    sessions forgets the table it finds: outcome and final table are the
    same from any two states.  Polling twice in a row is a special case. *)
Theorem poll_forgets_previous_table (F : Formatting) (self : t) (st1 st2 : state)
    (data : pyval) (text : string) (sessions : list Session.t) :
  activity (api self) = Ok data ->
  py_truthy data = true ->
  py_str data = Ok text ->
  Activity.sessions (Activity.mk data (time_settings self)) = Ok sessions ->
  fst (refresh_data F self st1) = fst (refresh_data F self st2)
  /\ session_ids (snd (refresh_data F self st1)) = session_ids (snd (refresh_data F self st2)).
Proof.
  intros Hdata Htruthy Htext Hsessions. run_poll.
  rewrite Hdata, Htruthy, Htext, Hsessions.
  destruct (index_sessions_same_table self sessions 0 []
              {| session_ids := ∅;
                 log := log st1 ++ [LogDebug ("JSON returned by GET request: " +:+ text)] |}
              {| session_ids := ∅;
                 log := log st2 ++ [LogDebug ("JSON returned by GET request: " +:+ text)] |}
              eq_refl) as [Hfst Hsnd].
  destruct (index_sessions _ _ _ _ _) as [[[c1 d1] | e1] s1];
    destruct (index_sessions _ _ _ _ _) as [[[c2 d2] | e2] s2];
    cbn [fst snd] in Hfst, Hsnd; simplify_eq.
  - destruct (Activity.message F _) as [overview | e].
    + by destruct (is_plex_server_online self) as [online | [] ];
        cbn; try destruct (event _ _ _) as [[] |].
    + by destruct e; cbn; try destruct (event _ _ _) as [[] |].
  - by destruct e2; cbn; try destruct (event _ _ _) as [[] |].
Qed.

Lemma poll_forgets_previous_table_witness :
  let self := Samples.connector (Ok Samples.three_sessions) (Ok VNone) (Ok tt) in
  let once := snd (refresh_data Samples.formatting self Samples.earlier) in
  session_ids (snd (refresh_data Samples.formatting self once)) = session_ids once.
Proof.
  intros self once.
  exact (proj2 (poll_forgets_previous_table Samples.formatting self once Samples.earlier
                  Samples.three_sessions _ _ eq_refl eq_refl eq_refl eq_refl)).
Defined.

(** Whatever follows the loop, sessions whose ids can all be read leave
    their ids in the table, in order. *)
Lemma refresh_data_table_readable F self st data text sessions ids :
  activity (api self) = Ok data -> py_truthy data = true -> py_str data = Ok text ->
  Activity.sessions (Activity.mk data (time_settings self)) = Ok sessions ->
  Forall2 (fun session sid => str_id session = Ok sid) sessions ids ->
  session_ids (snd (refresh_data F self st)) = assign 0 ids ∅.
Proof.
  intros Hdata Htruthy Htext Hsessions Hreadable. run_poll.
  rewrite Hdata, Htruthy, Htext, Hsessions.
  destruct (index_sessions_readable self [] sessions ids 0 []
              {| session_ids := ∅;
                 log := log st ++ [LogDebug ("JSON returned by GET request: " +:+ text)] |}
              Hreadable) as [details Hloop].
  rewrite app_nil_r in Hloop. rewrite Hloop. cbn [index_sessions mret M_ret session_ids log].
  unfold mret, M_ret.
  destruct (Activity.message F _) as [overview | e].
  - by destruct (is_plex_server_online self) as [online | [] ];
      cbn; try destruct (event _ _ _) as [[] |].
  - by destruct e; cbn; try destruct (event _ _ _) as [[] |].
Qed.

(** X2.  After a poll over sessions whose ids can all be read, the index
    [k] of [stop_stream] stands for the [k]-th session of the payload: the
    terminate request carries that session's id and the configured
    message, and the answer follows the request. *)
Theorem stop_stream_after_poll_targets_kth_session (F : Formatting) (self : t) (st : state)
    (data : pyval) (text : string) (sessions : list Session.t) (ids : list string)
    (emoji : string) (k : nat) (sid : string) :
  activity (api self) = Ok data ->
  py_truthy data = true ->
  py_str data = Ok text ->
  Activity.sessions (Activity.mk data (time_settings self)) = Ok sessions ->
  Forall2 (fun session sid => str_id session = Ok sid) sessions ids ->
  ids !! k = Some sid ->
  fst (stop_stream self emoji (Z.of_nat k + 1) (snd (refresh_data F self st))) =
  match terminate_session (api self) sid (terminate_message self) with
  | Ok stopped =>
      if py_truthy stopped
      then Ok ("Stream " +:+ emoji +:+ " was stopped.")
      else Ok ("Stream " +:+ emoji +:+ " could not be stopped.")
  | Raise _ =>
      match event (analytics self) "Error" "stop_stream" with
      | Ok _ => Ok "Something went wrong."
      | Raise e => Raise e
      end
  end.
Proof.
  intros Hdata Htruthy Htext Hsessions Hreadable Hk.
  destruct (stop_stream_cases self emoji (Z.of_nat k + 1) (snd (refresh_data F self st)))
    as [_ ->].
  rewrite (refresh_data_table_readable F self st data text sessions ids) by done.
  rewrite assign_lookup, decide_True.
  - replace (Z.to_nat (Z.of_nat k + 1 - 0 - 1)) with k by lia. by rewrite Hk.
  - apply lookup_lt_Some in Hk. lia.
Qed.

Lemma stop_stream_after_poll_targets_kth_session_witness :
  let self := Samples.connector (Ok Samples.three_sessions) (Ok (VBool true)) (Ok tt) in
  fst (stop_stream self ":three:" 3 (snd (refresh_data Samples.formatting self Samples.earlier)))
  = Ok "Stream :three: was stopped.".
Proof.
  intros self.
  refine (stop_stream_after_poll_targets_kth_session Samples.formatting self Samples.earlier
            Samples.three_sessions _
            [Session.mk (Samples.record (VStr "a")) VNone;
             Session.mk (Samples.record (VStr "b")) VNone;
             Session.mk (Samples.record (VStr "c")) VNone]
            ["a"; "b"; "c"] ":three:" 2 "c" eq_refl eq_refl eq_refl eq_refl _ eq_refl).
  repeat constructor.
Defined.

(** X3.  After a poll that returned an activity, every index below 1 or
    above the returned count is rejected by [stop_stream], whatever the
    table held before the poll. *)
Theorem stop_stream_after_poll_rejects_out_of_range (F : Formatting) (self : t)
    (st st' : state) (response : TautulliDataResponse.t) (count : Z) (act : Activity.t)
    (online : pyval) (emoji : string) (k : Z) :
  refresh_data F self st = (Ok (response, count, Some act, online), st') ->
  k < 1 \/ count < k ->
  fst (stop_stream self emoji k st') = Ok "**Invalid stream number.**".
Proof.
  intros Hpoll Hrange. apply stop_stream_rejected_iff.
  apply refresh_data_success_inv in Hpoll
    as (data & text & sessions & details & st1 & _ & _ & _ & _ & _ & Hloop & -> & _).
  destruct (session_ids st1 !! k) as [sid |] eqn:Hk; [| done].
  destruct (index_sessions_keys _ _ _ _ _ _ _ _ k Hloop) as [Hempty | ?];
    [by rewrite Hk | | lia].
  cbn in Hempty. rewrite lookup_empty in Hempty. by destruct Hempty.
Qed.

Lemma stop_stream_after_poll_rejects_out_of_range_witness :
  let self := Samples.connector (Ok (Samples.payload [Samples.record (VStr "a")]))
                (Ok (VBool true)) (Ok tt) in
  fst (stop_stream self ":two:" 2 (snd (refresh_data Samples.formatting self Samples.earlier)))
  = Ok "**Invalid stream number.**".
Proof.
  intros self.
  assert (exists response online,
            refresh_data Samples.formatting self Samples.earlier
            = (Ok (response, 1,
                   Some (Activity.mk (Samples.payload [Samples.record (VStr "a")]) VNone),
                   online),
               snd (refresh_data Samples.formatting self Samples.earlier)))
    as (response & online & Hpoll) by (eexists _, _; reflexivity).
  refine (stop_stream_after_poll_rejects_out_of_range Samples.formatting self
            Samples.earlier _ response 1 _ online ":two:" 2 Hpoll _).
  right. lia.
Defined.

(** Listing the sessions raises an [AttributeError] or a [TypeError],
    never a [KeyError]. *)
Lemma sessions_never_KeyError act e :
  Activity.sessions act = Raise e -> is_KeyError e = false.
Proof.
  unfold Activity.sessions, py_get, py_iter.
  destruct (Activity._data act) as [| | | | | d |]; cbn; try (intros [= <-]; done).
  destruct (dict_lookup d "sessions") as [[] |]; cbn; intros [= <-]; done.
Qed.

(** X4.  A poll that fails before the rebuild starts raises and is not
    turned into the connection-lost answer: when the request raises, when
    the truthy payload cannot be logged, or when its sessions cannot be
    listed (the payload is no dict, or ['sessions'] is not iterable), the
    exception leaves [refresh_data] and the table is the one from before. *)
Theorem poll_raising_before_rebuild (F : Formatting) (self : t) (st : state) (e : exn) :
  activity (api self) = Raise e
  \/ (exists data,
        activity (api self) = Ok data /\ py_truthy data = true
        /\ (py_str data = Raise e
            \/ (exists text, py_str data = Ok text)
               /\ Activity.sessions (Activity.mk data (time_settings self)) = Raise e)) ->
  fst (refresh_data F self st) = Raise e
  /\ session_ids (snd (refresh_data F self st)) = session_ids st.
Proof.
  intros [Hraise | (data & Hdata & Htruthy & [Hlog | [[text Htext] Hsessions]])]; run_poll.
  - by rewrite Hraise.
  - by rewrite Hdata, Htruthy, Hlog.
  - rewrite Hdata, Htruthy, Htext, Hsessions.
    by rewrite (sessions_never_KeyError _ _ Hsessions).
Qed.

Lemma poll_raising_before_rebuild_witness :
  let self := Samples.connector (Ok (VDict [("sessions", VNone)])) (Ok VNone) (Ok tt) in
  fst (refresh_data Samples.formatting self Samples.earlier) = Raise TypeError
  /\ session_ids (snd (refresh_data Samples.formatting self Samples.earlier))
     = session_ids Samples.earlier.
Proof.
  intros self.
  apply (poll_raising_before_rebuild Samples.formatting self Samples.earlier TypeError).
  right. exists (VDict [("sessions", VNone)]).
  split; [reflexivity |]. split; [reflexivity |]. right.
  split; [by eexists | reflexivity].
Defined.




(** The flags of the sessions up to the first one whose decision cannot
    be read. *)
Lemma transcoding_flags_fail before failing after e :
  Forall (fun session => exists flag, Session.is_transcoding session = Ok flag) before ->
  Session.is_transcoding failing = Raise e ->
  Activity.transcoding_flags (before ++ failing :: after) = Raise e.
Proof.
  intros Hbefore Hfailing.
  induction Hbefore as [| session before [flag Hflag] _ IH]; cbn.
  - by rewrite Hfailing.
  - by rewrite Hflag, IH.
Qed.

(** X6.  The overview is built after the table: when the payload
    announces a positive [stream_count] and a session has no
    [stream_container_decision], the [KeyError] of the transcode count ends
    the poll as connection lost although every session was indexed, and the
    table keeps the complete mapping of the poll that was given up. *)
Theorem poll_given_up_on_overview_keeps_full_table (F : Formatting) (self : t) (st : state)
    (data : pyval) (text : string) (ids : list string) (count : Z) (streams : string)
    (before : list Session.t) (undecided : Session.t) (after : list Session.t) :
  let act := Activity.mk data (time_settings self) in
  activity (api self) = Ok data ->
  py_truthy data = true ->
  py_str data = Ok text ->
  Activity.sessions act = Ok (before ++ undecided :: after) ->
  Forall2 (fun session sid => str_id session = Ok sid) (before ++ undecided :: after) ids ->
  Activity.stream_count act = Ok count ->
  0 < count ->
  sessions_message F count = Ok streams ->
  Forall (fun session => exists flag, Session.is_transcoding session = Ok flag) before ->
  Session.stream_container_decision undecided = Raise KeyError ->
  fst (refresh_data F self st) =
    match event (analytics self) "Error" "refresh_data (KeyError)" with
    | Ok _ => Ok connection_lost
    | Raise e => Raise e
    end
  /\ forall k, session_ids (snd (refresh_data F self st)) !! k
               = if decide (1 <= k) then ids !! Z.to_nat (k - 1) else None.
Proof.
  intros act Hdata Htruthy Htext Hsessions Hreadable Hcount Hpositive Hstreams Hbefore
    Hundecided.
  assert (Activity.message F act = Raise KeyError) as Hmessage.
  { unfold Activity.message, Activity.transcode_count.
    rewrite Hcount. cbn [mbind result_bind].
    destruct (Z.ltb_spec 0 count) as [_ | ?]; [| lia].
    rewrite Hstreams, Hsessions. cbn [mbind result_bind].
    rewrite (transcoding_flags_fail before undecided after KeyError); [done | done |].
    unfold Session.is_transcoding. by rewrite Hundecided. }
  split.
  - run_poll. rewrite Hdata, Htruthy, Htext. fold act. rewrite Hsessions.
    destruct (index_sessions_readable self [] _ ids 0 []
                {| session_ids := ∅;
                   log := log st ++ [LogDebug ("JSON returned by GET request: " +:+ text)] |}
                Hreadable) as [details Hloop].
    rewrite app_nil_r in Hloop. rewrite Hloop. cbn [index_sessions mret M_ret].
    unfold mret, M_ret. rewrite Hmessage. cbn.
    by destruct (event _ _ _) as [[] |].
  - intros k.
    rewrite (refresh_data_table_readable F self st data text _ ids) by done.
    rewrite assign_lookup, lookup_empty.
    repeat case_decide; try lia; try done.
    + by replace (k - 0 - 1) with (k - 1) by lia.
    + symmetry. apply lookup_ge_None. lia.
Qed.

Lemma poll_given_up_on_overview_keeps_full_table_witness :
  let self := Samples.connector (Ok Cases.undecided_payload) (Ok VNone) (Ok tt) in
  fst (refresh_data Samples.formatting self Samples.earlier) = Ok connection_lost
  /\ forall k, session_ids (snd (refresh_data Samples.formatting self Samples.earlier)) !! k
               = if decide (1 <= k) then ["a"; "b"] !! Z.to_nat (k - 1) else None.
Proof.
  intros self.
  refine (poll_given_up_on_overview_keeps_full_table Samples.formatting self Samples.earlier
            Cases.undecided_payload _ ["a"; "b"] 2 _
            [] (Session.mk (Cases.undecided "a") VNone)
            [Session.mk (Cases.undecided "b") VNone]
            eq_refl eq_refl eq_refl eq_refl _ eq_refl _ eq_refl _ eq_refl).
  - repeat constructor.
  - lia.
  - constructor.
Defined.

(** The loop hands back one descriptor per session, numbered in order. *)
Lemma index_sessions_details self sessions : forall c det st c' det' st',
  index_sessions self sessions c det st = (Ok (c', det'), st') ->
  det' = det ++ numbered c sessions.
Proof.
  induction sessions as [| session rest IH]; intros c det st c' det' st' H.
  - cbn in H. injection H as _ <- _. cbn. by rewrite app_nil_r.
  - apply index_sessions_ok_inv in H as (st1 & H & _).
    apply IH in H. rewrite H, <- app_assoc. done.
Qed.

Lemma numbered_lookup sessions : forall c i session,
  sessions !! i = Some session ->
  numbered c sessions !! i = Some (TautulliStreamInfo.mk session (c + Z.of_nat i + 1)).
Proof.
  induction sessions as [| s rest IH]; intros c [| i] session H; [done | done | |].
  - injection H as <-. cbn [numbered]. rewrite lookup_cons. do 2 f_equal. lia.
  - cbn [numbered]. rewrite lookup_cons.
    rewrite (IH (c + 1) i session H). do 2 f_equal. lia.
Qed.

Lemma numbered_length sessions : forall c, length (numbered c sessions) = length sessions.
Proof. induction sessions as [| s rest IH]; intros c; cbn; [done | by rewrite IH]. Qed.

(** Every entry the loop writes is the id of the session at that place. *)
Lemma index_sessions_entries self sessions : forall c det st c' det' st' k sid,
  index_sessions self sessions c det st = (Ok (c', det'), st') ->
  session_ids st' !! k = Some sid ->
  session_ids st !! k = Some sid
  \/ (c < k /\ exists session,
         sessions !! Z.to_nat (k - c - 1) = Some session /\ str_id session = Ok sid).
Proof.
  induction sessions as [| session rest IH]; intros c det st c' det' st' k sid H Hk.
  - cbn in H. injection H as _ _ <-. by left.
  - apply index_sessions_ok_inv in H as (st1 & H & Hst1).
    destruct (IH _ _ _ _ _ _ k sid H Hk) as [Hold | (Hrange & later & Hlater & Hsid)].
    + destruct Hst1 as [(sid0 & Hsid0 & ->) | (_ & ->)]; cbn in Hold; [| by left].
      destruct (decide (c + 1 = k)) as [<- | Hne].
      * rewrite lookup_insert_eq in Hold. injection Hold as ->.
        right. split; [lia |]. exists session.
        by replace (Z.to_nat (c + 1 - c - 1)) with 0%nat by lia.
      * rewrite lookup_insert_ne in Hold by done. by left.
    + right. split; [lia |]. exists later. split; [| done].
      replace (Z.to_nat (k - c - 1)) with (S (Z.to_nat (k - (c + 1) - 1))) by lia. done.
Qed.

(** A successful poll, with what it hands to the renderer. *)
Lemma refresh_data_success_response F self st st' response count act online :
  refresh_data F self st = (Ok (response, count, Some act, online), st') ->
  exists text sessions st1,
    Activity.sessions act = Ok sessions
    /\ index_sessions self sessions 0 [] (rebuild_start st text)
       = (Ok (count, TautulliDataResponse._streams response), st1)
    /\ session_ids st' = session_ids st1.
Proof.
  unfold rebuild_start. run_poll.
  destruct (activity (api self)) as [data |]; [| done].
  destruct (py_truthy data); [| done].
  destruct (py_str data) as [text |]; [| done].
  destruct (Activity.sessions _) as [sessions |] eqn:Hsessions.
  2:{ cbn. repeat case_match; done. }
  destruct (index_sessions _ _ _ _ _) as [[[c details] | e] st1] eqn:Hloop.
  2:{ cbn. repeat case_match; done. }
  intros H. exists text, sessions, st1.
  cbn in H. repeat case_match; simplify_eq; try done.
Qed.

(** X7.  What a successful poll hands to the renderer matches the table:
    there is one descriptor per session of the payload, the [i]-th one
    carries the number [i], and every entry [k -> id] of the table is the
    id of the session in the descriptor numbered [k]. *)
Theorem descriptors_match_table (F : Formatting) (self : t) (st st' : state)
    (response : TautulliDataResponse.t) (count : Z) (act : Activity.t) (online : pyval) :
  refresh_data F self st = (Ok (response, count, Some act, online), st') ->
  exists sessions,
    Activity.sessions act = Ok sessions
    /\ length (TautulliDataResponse._streams response) = length sessions
    /\ (forall i session,
          sessions !! i = Some session ->
          TautulliDataResponse._streams response !! i
          = Some (TautulliStreamInfo.mk session (Z.of_nat i + 1)))
    /\ (forall k sid,
          session_ids st' !! k = Some sid ->
          exists session,
            TautulliDataResponse._streams response !! Z.to_nat (k - 1)
            = Some (TautulliStreamInfo.mk session k)
            /\ str_id session = Ok sid).
Proof.
  intros Hpoll.
  apply refresh_data_success_response in Hpoll as (text & sessions & st1 & Hs & Hloop & ->).
  exists sessions. split; [done |].
  pose proof (index_sessions_details _ _ _ _ _ _ _ _ Hloop) as Hdetails.
  cbn [app] in Hdetails. rewrite Hdetails.
  split; [apply numbered_length |]. split.
  - intros i session Hi. by rewrite (numbered_lookup sessions 0 i session Hi).
  - intros k sid Hk.
    destruct (index_sessions_entries _ _ _ _ _ _ _ _ k sid Hloop Hk)
      as [Hempty | (Hrange & session & Hsession & Hsid)].
    { cbn in Hempty. by rewrite lookup_empty in Hempty. }
    exists session. split; [| done].
    replace (k - 0 - 1) with (k - 1) in Hsession by lia.
    rewrite (numbered_lookup sessions 0 _ session Hsession). do 2 f_equal. lia.
Qed.

Lemma descriptors_match_table_witness :
  let self := Samples.connector (Ok Samples.awkward_payload) (Ok VNone) (Ok tt) in
  exists response online after (sessions : list Session.t),
    refresh_data Samples.formatting self Samples.earlier
    = (Ok (response, 3, Some (Activity.mk Samples.awkward_payload VNone), online), after)
    /\ length (TautulliDataResponse._streams response) = length sessions
    /\ length sessions = 3%nat.
Proof.
  intros self.
  assert (exists response online,
            refresh_data Samples.formatting self Samples.earlier
            = (Ok (response, 3, Some (Activity.mk Samples.awkward_payload VNone), online),
               snd (refresh_data Samples.formatting self Samples.earlier)))
    as (response & online & Hpoll) by (eexists _, _; reflexivity).
  destruct (descriptors_match_table Samples.formatting self Samples.earlier _
              response 3 _ online Hpoll) as (sessions & Hsessions & Hlength & _).
  exists response, online, (snd (refresh_data Samples.formatting self Samples.earlier)),
    sessions.
  split; [exact Hpoll |]. split; [exact Hlength |].
  cbn in Hsessions. by injection Hsessions as <-.
Defined.

(** X8.  A poll over a well-formed payload succeeds: when the payload
    is truthy and can be logged, every session has an id [str()] accepts,
    the overview renders and the server status is answered, [refresh_data]
    returns the overview in a response that is no error and carries the
    connector's [plex_pass], the number of sessions, the activity and the
    online flag; the table maps [k] to the id of the [k]-th session and
    holds nothing else, and the log gains the payload and the count. *)
Theorem well_formed_poll_succeeds (F : Formatting) (self : t) (st : state) (data : pyval)
    (text : string) (sessions : list Session.t) (ids : list string) (overview : string)
    (online : pyval) :
  activity (api self) = Ok data ->
  py_truthy data = true ->
  py_str data = Ok text ->
  Activity.sessions (Activity.mk data (time_settings self)) = Ok sessions ->
  Forall2 (fun session sid => str_id session = Ok sid) sessions ids ->
  Activity.message F (Activity.mk data (time_settings self)) = Ok overview ->
  is_plex_server_online self = Ok online ->
  exists response,
    fst (refresh_data F self st)
    = Ok (response, Z.of_nat (length sessions),
          Some (Activity.mk data (time_settings self)), online)
    /\ TautulliDataResponse._overview_message response = overview
    /\ TautulliDataResponse.error response = false
    /\ TautulliDataResponse.plex_pass response = plex_pass self
    /\ (forall k, session_ids (snd (refresh_data F self st)) !! k
                  = if decide (1 <= k) then ids !! Z.to_nat (k - 1) else None)
    /\ log (snd (refresh_data F self st))
       = log st ++ [LogDebug ("JSON returned by GET request: " +:+ text);
                    LogDebug ("Count: " +:+ string_of_Z (Z.of_nat (length sessions)))].
Proof.
  intros Hdata Htruthy Htext Hsessions Hreadable Hoverview Honline.
  destruct (refresh_data_succeeds F self st data text sessions ids overview online
              Hdata Htruthy Htext Hsessions Hreadable Hoverview Honline) as [details ->].
  eexists. split; [reflexivity |]. cbn [fst snd session_ids log].
  repeat split.
  intros k. rewrite assign_lookup, lookup_empty.
  replace (k - 0 - 1) with (k - 1) by lia.
  repeat case_decide; try lia; try done.
  symmetry. apply lookup_ge_None. lia.
Qed.

Lemma well_formed_poll_succeeds_witness :
  let self := Samples.connector (Ok Samples.three_sessions) (Ok VNone) (Ok tt) in
  exists response,
    fst (refresh_data Samples.formatting self Samples.earlier)
    = Ok (response, 3, Some (Activity.mk Samples.three_sessions VNone), VBool true)
    /\ TautulliDataResponse.error response = false.
Proof.
  intros self.
  destruct (well_formed_poll_succeeds Samples.formatting self Samples.earlier
              Samples.three_sessions _
              [Session.mk (Samples.record (VStr "a")) VNone;
               Session.mk (Samples.record (VStr "b")) VNone;
               Session.mk (Samples.record (VStr "c")) VNone]
              ["a"; "b"; "c"] _ (VBool true)
              eq_refl eq_refl eq_refl eq_refl
              ltac:(repeat constructor)
              eq_refl eq_refl)
    as (response & Hpoll & _ & Herror & _).
  exists response. split; [exact Hpoll | exact Herror].
Defined.

End MorePolling.

(** ** Derived fields, beyond the claims *)

Section MoreDerivedFields.

Lemma transcoding_flags_ok sessions : forall flags,
  Activity.transcoding_flags sessions = Ok flags ->
  flags = map transcodes sessions
  /\ Forall (fun session => exists flag, Session.is_transcoding session = Ok flag) sessions.
Proof.
  induction sessions as [| session rest IH]; intros flags; cbn.
  - intros [= <-]. done.
  - destruct (Session.is_transcoding session) as [flag |] eqn:Hflag; [| done]. cbn.
    destruct (Activity.transcoding_flags rest) as [flags' |]; [| done]. cbn.
    intros [= <-]. destruct (IH flags' eq_refl) as [-> Hrest].
    split.
    + cbn [map]. f_equal. unfold transcodes. by rewrite Hflag.
    + constructor; [by exists flag | done].
Qed.

Lemma count_true_map {A : Type} (f : A -> bool) (l : list A) :
  length (filter (fun b : bool => b = true) (map f l))
  = length (filter (fun a => f a = true) l).
Proof.
  induction l as [| a l IH]; [done |]. cbn [map].
  rewrite !filter_cons. destruct (f a) eqn:E.
  - rewrite !decide_True by done. cbn. by rewrite IH.
  - rewrite !decide_False by done. done.
Qed.

(** X9.  When [transcode_count] returns, every session of the payload has
    a readable [stream_container_decision], and the count is the number of
    sessions whose decision is the text ['transcode']: it lies between 0
    and the number of sessions, whatever the payload's own counters say. *)
Theorem transcode_count_counts_sessions (act : Activity.t) (n : Z) :
  Activity.transcode_count act = Ok n ->
  exists sessions,
    Activity.sessions act = Ok sessions
    /\ Forall (fun session =>
                exists decision,
                  Session.stream_container_decision session = Ok decision) sessions
    /\ n = Z.of_nat (length (filter (fun session => transcodes session = true) sessions))
    /\ 0 <= n <= Z.of_nat (length sessions).
Proof.
  unfold Activity.transcode_count.
  destruct (Activity.sessions act) as [sessions |]; [| done]. cbn.
  destruct (Activity.transcoding_flags sessions) as [flags |] eqn:Hflags; [| done]. cbn.
  intros [= <-]. apply transcoding_flags_ok in Hflags as [-> Hall].
  exists sessions. split; [done |]. split.
  - eapply Forall_impl; [exact Hall |]. intros session [flag Hflag].
    unfold Session.is_transcoding in Hflag.
    destruct (Session.stream_container_decision session) as [decision |]; [| done].
    by exists decision.
  - rewrite count_true_map.
    pose proof (length_filter (fun session => transcodes session = true) sessions).
    split; lia.
Qed.

Lemma transcode_count_counts_sessions_witness :
  exists sessions,
    Activity.sessions (Activity.mk Cases.mixed_payload VNone) = Ok sessions
    /\ Forall (fun session =>
                exists decision,
                  Session.stream_container_decision session = Ok decision) sessions
    /\ 2 = Z.of_nat (length (filter (fun session => transcodes session = true) sessions))
    /\ 0 <= 2 <= Z.of_nat (length sessions).
Proof.
  exact (transcode_count_counts_sessions (Activity.mk Cases.mixed_payload VNone) 2 eq_refl).
Defined.

(** The sign of a quotient is worked out apart from its magnitude. *)
Lemma int_true_divide_sign a b :
  a <> 0 -> b <> 0 ->
  int_true_divide a b =
  (fun f => {| f_neg := xorb (a <? 0) (b <? 0); f_mant := f_mant f; f_expo := f_expo f |})
    <$> int_true_divide (Z.abs a) (Z.abs b).
Proof.
  intros Ha Hb. unfold int_true_divide.
  rewrite !(Z.abs_eq (Z.abs _)) by lia.
  destruct (Z.eqb_spec b 0); [done |]. destruct (Z.eqb_spec a 0); [done |].
  destruct (Z.eqb_spec (Z.abs b) 0); [lia |]. destruct (Z.eqb_spec (Z.abs a) 0); [lia |].
  by destruct (_ && _).
Qed.

Lemma int_true_divide_positive x y f :
  0 <= x -> 0 < y -> int_true_divide x y = Ok f -> f_neg f = false.
Proof.
  intros Hx Hy. unfold int_true_divide.
  destruct (y =? 0); [done |]. destruct (x =? 0); [by intros [= <-] |].
  destruct (_ && _); [done |]. intros [= <-]. cbn.
  destruct (Z.ltb_spec x 0), (Z.ltb_spec y 0); done || lia.
Qed.

(** With a dividend below [2^53] in size, [int(a / b)] is the quotient
    rounded towards zero. *)
Lemma int_true_divide_quot a b :
  Z.abs a < 2 ^ 53 -> b <> 0 ->
  int_of_float <$> int_true_divide a b = Ok (a ÷ b).
Proof.
  intros Ha Hb. destruct (Z.eq_dec a 0) as [-> | Ha0].
  { unfold int_true_divide. destruct (Z.eqb_spec b 0); [done |]. cbn.
    by rewrite Z.quot_0_l. }
  rewrite int_true_divide_sign by done.
  pose proof (int_true_divide_floor (Z.abs a) (Z.abs b) ltac:(lia) ltac:(lia)) as Hfloor.
  destruct (int_true_divide (Z.abs a) (Z.abs b)) as [f |] eqn:Hf; [| done].
  apply int_true_divide_positive in Hf; [| lia | lia].
  cbn in Hfloor |- *. injection Hfloor as Hfloor. f_equal.
  unfold int_of_float in *. rewrite Hf in Hfloor. cbn [f_neg f_mant f_expo].
  rewrite Hfloor, (Z.quot_div a b) by done.
  destruct (Z.ltb_spec a 0), (Z.ltb_spec b 0); cbn [xorb];
    rewrite ?(Z.sgn_neg a), ?(Z.sgn_pos a), ?(Z.sgn_neg b), ?(Z.sgn_pos b) by lia; lia.
Qed.

(** X10.  For every session whose coerced position is below [2^53] in
    size and whose coerced duration is not 0, negative values included,
    [progress_percentage] returns the quotient of position by duration
    rounded towards zero; it raises neither a [ZeroDivisionError] nor an
    [OverflowError]. *)
Theorem progress_percentage_truncates (s : Session.t) (position duration : Z) :
  Session.location_milliseconds s = Ok position ->
  Session.duration_milliseconds s = Ok duration ->
  Z.abs position < 2 ^ 53 ->
  duration <> 0 ->
  Session.progress_percentage s = Ok (position ÷ duration).
Proof.
  intros Hposition Hduration Hsize Hnonzero. unfold Session.progress_percentage.
  rewrite Hduration, Hposition. cbn [mbind result_bind].
  destruct (Z.eqb_spec duration 0); [done |].
  pose proof (int_true_divide_quot position duration Hsize Hnonzero) as H.
  destruct (int_true_divide position duration) as [q |]; [| done].
  cbn in H. injection H as <-. done.
Qed.

Lemma progress_percentage_truncates_witness :
  Session.progress_percentage Samples.rewound = Ok (-1 ÷ 2).
Proof.
  apply (progress_percentage_truncates Samples.rewound (-1) 2);
    [reflexivity | reflexivity | reflexivity | discriminate].
Defined.

End MoreDerivedFields.

(** ** The library methods *)

Section Libraries.
Import TautulliConnector.

Lemma find_library_id_skips library_name before rest :
  Forall (other_library library_name) before ->
  find_library_id (before ++ rest) library_name = find_library_id rest library_name.
Proof.
  induction 1 as [| library before (section_name & Hname & Hother) _ IH]; [done |].
  cbn. by rewrite Hname; cbn; rewrite Hother.
Qed.

(** X11.  [get_library_id] answers with the [section_id] of the first
    library whose [section_name] is the name asked for ([None] if that
    record has no [section_id]), looks no further, and logs nothing. *)
Theorem get_library_id_first_match (client : LibraryAPI) (library_name : string)
    (names : pyval) (before : list pyval) (library : pyval) (after : list pyval)
    (section_name : pyval) :
  library_names client = Ok names ->
  py_iter names = Ok (before ++ library :: after) ->
  Forall (other_library library_name) before ->
  py_get library "section_name" VNone = Ok section_name ->
  py_eq_str section_name library_name = true ->
  get_library_id client library_name = (py_get library "section_id" VNone, []).
Proof.
  intros Hnames Hiter Hbefore Hname Hsame.
  unfold get_library_id, mbind, Logged_bind, unlogged. rewrite Hnames, Hiter.
  rewrite find_library_id_skips by done. cbn [find_library_id].
  rewrite Hname. cbn [mbind result_bind]. rewrite Hsame.
  by destruct library.
Qed.

Lemma get_library_id_first_match_witness :
  get_library_id Cases.library_client "Music" = (Ok (VInt 2), []).
Proof.
  refine (get_library_id_first_match Cases.library_client "Music" Cases.shelves
            [VDict [("section_name", VStr "Films"); ("section_id", VInt 1)]]
            (VDict [("section_name", VStr "Music"); ("section_id", VInt 2)])
            _ (VStr "Music") eq_refl eq_refl _ eq_refl eq_refl).
  constructor; [| constructor]. by exists (VStr "Films").
Defined.

(** X12.  When every record is a library of another name,
    [get_library_id] answers [None] and logs that the library has no id;
    so does an empty list of libraries. *)
Theorem get_library_id_no_match (client : LibraryAPI) (library_name : string)
    (names : pyval) (libraries : list pyval) :
  library_names client = Ok names ->
  py_iter names = Ok libraries ->
  Forall (other_library library_name) libraries ->
  get_library_id client library_name
  = (Ok VNone, [LibraryError ("Could not get ID for library " +:+ library_name)]).
Proof.
  intros Hnames Hiter Hall.
  unfold get_library_id, mbind, Logged_bind, unlogged. rewrite Hnames, Hiter.
  rewrite <- (app_nil_r libraries), find_library_id_skips by done. done.
Qed.

Lemma get_library_id_no_match_witness :
  get_library_id Cases.library_client "Books"
  = (Ok VNone, [LibraryError "Could not get ID for library Books"]).
Proof.
  refine (get_library_id_no_match Cases.library_client "Books" Cases.shelves _
            eq_refl eq_refl _).
  repeat constructor; by eexists.
Defined.

(** What the two callers of [get_library_id] do with its answer. *)
Lemma get_library_info_cases client library_name :
  fst (get_library_info client library_name) =
  match fst (get_library_id client library_name) with
  | Ok library_id => if py_truthy library_id then get_library client library_id else Ok VNone
  | Raise e => Raise e
  end.
Proof.
  unfold get_library_info, mbind, Logged_bind, logged, unlogged, mret, Logged_ret.
  destruct (get_library_id client library_name) as [[library_id | e] lines]; [| done].
  cbn. by destruct (py_truthy library_id).
Qed.

(** X13.  A library that is not found, or whose [section_id] is falsy (0,
    the empty text, [None]), counts 0 items: [get_library_item_count]
    answers 0 whatever the API would say about that library. *)
Theorem get_library_item_count_without_id (client : LibraryAPI) (library_name : string)
    (library_id : pyval) :
  fst (get_library_id client library_name) = Ok library_id ->
  py_truthy library_id = false ->
  fst (get_library_info client library_name) = Ok VNone
  /\ fst (get_library_item_count client library_name) = Ok (VInt 0).
Proof.
  intros Hid Hfalsy.
  pose proof (get_library_info_cases client library_name) as Hinfo.
  rewrite Hid, Hfalsy in Hinfo. split; [done |].
  unfold get_library_item_count, mbind, Logged_bind.
  destruct (get_library_info client library_name) as [info lines].
  cbn in Hinfo. by rewrite Hinfo.
Qed.

Lemma get_library_item_count_without_id_witness :
  fst (get_library_info Cases.library_client "Drafts") = Ok VNone
  /\ fst (get_library_item_count Cases.library_client "Drafts") = Ok (VInt 0).
Proof.
  exact (get_library_item_count_without_id Cases.library_client "Drafts" (VInt 0)
           eq_refl eq_refl).
Defined.

(** X14.  For a library with a truthy id whose record the API returns as a
    non-empty dict, [get_library_item_count] answers [child_count] (the
    tracks) when the [section_type] is ['artist'], [None] if that field is
    absent, and [count] otherwise, 0 if that field is absent. *)
Theorem get_library_item_count_of_record (client : LibraryAPI) (library_name : string)
    (library_id : pyval) (info : list (string * pyval)) :
  fst (get_library_id client library_name) = Ok library_id ->
  py_truthy library_id = true ->
  get_library client library_id = Ok (VDict info) ->
  info <> [] ->
  fst (get_library_item_count client library_name) =
  Ok (if py_eq_str (default VNone (dict_lookup info "section_type")) "artist"
      then default VNone (dict_lookup info "child_count")
      else default (VInt 0) (dict_lookup info "count")).
Proof.
  intros Hid Htruthy Hrecord Hnonempty.
  pose proof (get_library_info_cases client library_name) as Hinfo.
  rewrite Hid, Htruthy, Hrecord in Hinfo.
  unfold get_library_item_count, mbind, Logged_bind, unlogged.
  destruct (get_library_info client library_name) as [found lines].
  cbn in Hinfo. rewrite Hinfo. destruct info as [| entry info]; [done |].
  cbn [py_truthy negb py_get].
  by destruct (py_eq_str _ _).
Qed.

Lemma get_library_item_count_of_record_witness :
  fst (get_library_item_count Cases.library_client "Music") = Ok (VInt 90)
  /\ fst (get_library_item_count Cases.library_client "Films") = Ok (VInt 40).
Proof.
  split.
  - exact (get_library_item_count_of_record Cases.library_client "Music" (VInt 2)
             [("section_type", VStr "artist"); ("count", VInt 7); ("child_count", VInt 90)]
             eq_refl eq_refl eq_refl ltac:(discriminate)).
  - exact (get_library_item_count_of_record Cases.library_client "Films" (VInt 1)
             [("section_type", VStr "movie"); ("count", VInt 40)]
             eq_refl eq_refl eq_refl ltac:(discriminate)).
Defined.

End Libraries.

(** ** What is displayed of a session *)

Section Display.






(** A one-character text beyond ASCII takes two bytes and is padded all
    the same. *)
Example zfill_counts_characters :
  String.length "é" = 2%nat /\ characters "é" = 1%nat /\ zfill "é" 2 = "0é".
Proof. done. Qed.



(** X16.  A session that has no duration, or that has not started, has
    the estimated end ["Unknown"]: neither the clock nor the time settings
    are consulted, so settings without a timezone do no harm. *)
Theorem eta_unknown (T : Templates) (s : Session.t) (position duration : Z) :
  Session.location_milliseconds s = Ok position ->
  Session.duration_milliseconds s = Ok duration ->
  duration = 0 \/ position = 0 ->
  SessionView.eta T s = Ok "Unknown".
Proof.
  intros Hposition Hduration Hzero. unfold SessionView.eta.
  rewrite Hduration. cbn [mbind result_bind].
  destruct (Z.eqb_spec duration 0); [done |].
  rewrite Hposition. cbn [mbind result_bind].
  destruct (Z.eqb_spec position 0); [done | lia].
Qed.

Lemma eta_unknown_witness : SessionView.eta Cases.templates Cases.unstarted = Ok "Unknown".
Proof.
  apply (eta_unknown Cases.templates Cases.unstarted 0 3600000);
    [reflexivity | reflexivity | by right].
Defined.

End Display.

(** ** Rendering a response *)

Section Rendering.
Variable F : Formatting.
Variable T : Templates.

Lemma keeps_table_ret {A : Type} (a : A) : keeps_table (mret a).
Proof. by intros st. Qed.

Lemma keeps_table_lift {A : Type} (r : result A) : keeps_table (lift r).
Proof. by intros st. Qed.

Lemma keeps_table_write entry : keeps_table (logging.write entry).
Proof. by intros st. Qed.

Lemma keeps_table_bind {A B : Type} (m : M A) (f : A -> M B) :
  keeps_table m -> (forall a, keeps_table (f a)) -> keeps_table (m ≫= f).
Proof.
  intros Hm Hf st. unfold mbind, M_bind. specialize (Hm st).
  destruct (m st) as [[a | e] st1]; cbn in Hm |- *; [| done].
  by rewrite Hf.
Qed.

Lemma keeps_table_try {A : Type} (body : M A) caught (handler : exn -> M A) :
  keeps_table body -> (forall e, keeps_table (handler e)) ->
  keeps_table (try_except body caught handler).
Proof.
  intros Hbody Hhandler st. unfold try_except. specialize (Hbody st).
  destruct (body st) as [[a | e] st1]; cbn in Hbody |- *; [done |].
  destruct (caught e); [| done]. by rewrite Hhandler.
Qed.

Lemma always_returns_ret {A : Type} (a : A) : always_returns (mret a).
Proof. intros st. by exists a. Qed.

Lemma always_returns_bind {A B : Type} (m : M A) (f : A -> M B) :
  always_returns m -> (forall a, always_returns (f a)) -> always_returns (m ≫= f).
Proof.
  intros Hm Hf st. unfold mbind, M_bind. destruct (Hm st) as [a Ha].
  destruct (m st) as [[a' | e] st1]; cbn in Ha; [| done]. apply Hf.
Qed.

(** A handler that takes every exception and returns makes the whole
    statement return. *)
Lemma always_returns_try {A : Type} (body : M A) (handler : exn -> M A) :
  (forall e, always_returns (handler e)) ->
  always_returns (try_except body is_Exception handler).
Proof.
  intros Hhandler st. unfold try_except.
  destruct (body st) as [[a | e] st1]; [by exists a |]. apply Hhandler.
Qed.

Create HintDb rendering.
#[local] Hint Resolve keeps_table_ret keeps_table_lift keeps_table_write keeps_table_bind
  keeps_table_try always_returns_ret always_returns_bind always_returns_try : rendering.

Lemma type_icon_keeps_table session : keeps_table (SessionView.type_icon T session).
Proof.
  unfold SessionView.type_icon, logging.info.
  apply keeps_table_bind; [auto with rendering | intros media_type].
  apply keeps_table_bind; [auto with rendering | intros [icon |]]; [auto with rendering |].
  apply keeps_table_bind; [auto with rendering | intros live].
  destruct (py_truthy live); auto 10 with rendering.
Qed.

Lemma title_keeps_table stream : keeps_table (TautulliStreamInfo.title T stream).
Proof.
  unfold TautulliStreamInfo.title, SessionView._session_title.
  pose proof type_icon_keeps_table. auto 10 with rendering.
Qed.

Lemma title_always_returns stream : always_returns (TautulliStreamInfo.title T stream).
Proof. unfold TautulliStreamInfo.title. auto with rendering. Qed.

Lemma body_keeps_table stream : keeps_table (TautulliStreamInfo.body F T stream).
Proof. unfold TautulliStreamInfo.body, logging.error. auto 10 with rendering. Qed.

Lemma body_always_returns stream : always_returns (TautulliStreamInfo.body F T stream).
Proof. unfold TautulliStreamInfo.body, logging.error.
  apply always_returns_try. intros e. apply always_returns_bind; [| auto with rendering].
  intros st. by exists tt.
Qed.

Lemma add_streams_keeps_table streams : forall text,
  keeps_table (TautulliDataResponse.add_streams F T streams text).
Proof.
  induction streams as [| stream rest IH]; intros text; cbn; [auto with rendering |].
  pose proof title_keeps_table. pose proof body_keeps_table. auto 10 with rendering.
Qed.

Lemma add_streams_always_returns streams : forall text,
  always_returns (TautulliDataResponse.add_streams F T streams text).
Proof.
  induction streams as [| stream rest IH]; intros text; cbn; [auto with rendering |].
  pose proof title_always_returns. pose proof body_always_returns. auto 10 with rendering.
Qed.

Lemma add_fields_keeps_table streams : forall fields,
  keeps_table (TautulliDataResponse.add_fields F T streams fields).
Proof.
  induction streams as [| stream rest IH]; intros fields; cbn; [auto with rendering |].
  pose proof title_keeps_table. pose proof body_keeps_table. auto 10 with rendering.
Qed.

(** The embed loop adds one field per descriptor, none of them inline. *)
Lemma add_fields_returns streams : forall fields st,
  exists added,
    fst (TautulliDataResponse.add_fields F T streams fields st) = Ok (fields ++ added)
    /\ length added = length streams
    /\ Forall (fun field => snd field = false) added.
Proof.
  induction streams as [| stream rest IH]; intros fields st; cbn [TautulliDataResponse.add_fields].
  - exists []. by rewrite app_nil_r.
  - unfold mbind at 1, M_bind at 1.
    destruct (title_always_returns stream st) as [name Hname].
    destruct (TautulliStreamInfo.title T stream st) as [[name' | ?] st1]; [| done].
    cbn in Hname. injection Hname as ->.
    unfold mbind at 1, M_bind at 1.
    destruct (body_always_returns stream st1) as [value Hvalue].
    destruct (TautulliStreamInfo.body F T stream st1) as [[value' | ?] st2]; [| done].
    cbn in Hvalue. injection Hvalue as ->.
    destruct (IH (fields ++ [(name, value, false)]) st2) as (added & Hadded & Hlength & Hinline).
    exists ((name, value, false) :: added).
    rewrite Hadded, <- app_assoc. cbn. split; [done |]. split; [by rewrite Hlength |].
    by constructor.
Qed.

Lemma append_nil_r (s : string) : s +:+ "" = s.
Proof. induction s as [| c s IH]; [done |]. exact (f_equal (String c) IH). Qed.

Lemma append_assoc (s1 s2 s3 : string) : (s1 +:+ s2) +:+ s3 = s1 +:+ (s2 +:+ s3).
Proof. induction s1 as [| c s1 IH]; [done |]. exact (f_equal (String c) IH). Qed.

(** The message loop only ever adds to the text it is given. *)
Lemma add_streams_returns streams : forall text st,
  exists listing,
    fst (TautulliDataResponse.add_streams F T streams text st) = Ok (text +:+ listing).
Proof.
  induction streams as [| stream rest IH]; intros text st;
    cbn [TautulliDataResponse.add_streams].
  - exists "". cbn. by rewrite append_nil_r.
  - unfold mbind at 1, M_bind at 1.
    destruct (title_always_returns stream st) as [title Htitle].
    destruct (TautulliStreamInfo.title T stream st) as [[title' | ?] st1]; [| done].
    cbn in Htitle. injection Htitle as ->.
    unfold mbind at 1, M_bind at 1.
    destruct (body_always_returns stream st1) as [body Hbody].
    destruct (TautulliStreamInfo.body F T stream st1) as [[body' | ?] st2]; [| done].
    cbn in Hbody. injection Hbody as ->.
    destruct (IH (text +:+ title +:+ newline +:+ body +:+ newline) st2) as [listing ->].
    exists (title +:+ newline +:+ body +:+ newline +:+ listing).
    by rewrite !append_assoc.
Qed.

(** X17.  Rendering never fails and never touches the table: for every
    response, whatever its sessions hold and whatever the helpers and
    templates do, [message] and [embed] return, and [session_ids] is as it
    was.  A descriptor that cannot be displayed is contained by the
    handlers of its title and of its body. *)
Theorem rendering_always_returns (response : TautulliDataResponse.t) (st : state) :
  (exists text, fst (TautulliDataResponse.message F T response st) = Ok text)
  /\ (exists card, fst (TautulliDataResponse.embed F T response st) = Ok card)
  /\ session_ids (snd (TautulliDataResponse.message F T response st)) = session_ids st
  /\ session_ids (snd (TautulliDataResponse.embed F T response st)) = session_ids st.
Proof.
  unfold TautulliDataResponse.message, TautulliDataResponse.embed.
  destruct (TautulliDataResponse._streams response) as [| stream rest] eqn:Hstreams.
  { repeat split; by eexists. }
  split; [| split; [| split]].
  - apply always_returns_bind; [apply add_streams_always_returns | auto with rendering].
  - unfold mbind, M_bind.
    destruct (add_fields_returns (stream :: rest) [] st) as (added & Hadded & _).
    destruct (TautulliDataResponse.add_fields _ _ _ _ _) as [[fields | ?] st1]; [| done].
    by eexists.
  - apply keeps_table_bind; [apply add_streams_keeps_table | auto with rendering].
  - apply keeps_table_bind; [apply add_fields_keeps_table | auto with rendering].
Qed.

(** An answer of [refresh_data] without an activity is the
    connection-lost answer. *)
Lemma refresh_data_without_activity self st st' response count online :
  TautulliConnector.refresh_data F self st = (Ok (response, count, None, online), st') ->
  (response, count, @None Activity.t, online) = TautulliConnector.connection_lost.
Proof.
  unfold TautulliConnector.refresh_data, try_except, TautulliConnector._error_and_analytics,
    mbind, M_bind, mret, M_ret, lift, set_session_ids, logging.debug, logging.error,
    logging.write.
  intros H. repeat case_match; simplify_eq; done.
Qed.

(** X18.  Every answer of [refresh_data] that carries no activity (an
    empty payload, or a [KeyError] while the payload is processed) is
    flagged as an error with a count of 0 and the server offline, and both
    renderings show it as no activity: the message is
    ["No current activity."], the embed has that title, no field and no
    footer, and the ["**Connection lost.**"] overview is in neither. *)
Theorem failed_poll_renders_as_no_activity (self : TautulliConnector.t) (st st' after : state)
    (response : TautulliDataResponse.t) (count : Z) (online : pyval) :
  TautulliConnector.refresh_data F self st = (Ok (response, count, None, online), st') ->
  TautulliDataResponse.error response = true
  /\ count = 0
  /\ online = VBool false
  /\ TautulliDataResponse._overview_message response = "**Connection lost.**"
  /\ TautulliDataResponse.message F T response after = (Ok "No current activity.", after)
  /\ TautulliDataResponse.embed F T response after
     = (Ok {| TautulliDataResponse.embed_title := "No current activity";
              TautulliDataResponse.embed_fields := [];
              TautulliDataResponse.embed_footer := None |}, after).
Proof.
  intros Hpoll. apply refresh_data_without_activity in Hpoll.
  injection Hpoll as -> -> ->. done.
Qed.

(** X19.  For a response with descriptors, the embed carries the overview
    as its title and one field per descriptor, none inline, and its footer
    about terminating a stream is there exactly when [plex_pass] is set;
    the message starts with the overview and ends with that line whether
    [plex_pass] is set or not. *)
Theorem embed_of_streams (response : TautulliDataResponse.t) (st : state) :
  TautulliDataResponse._streams response <> [] ->
  (exists listing,
      fst (TautulliDataResponse.message F T response st)
      = Ok (TautulliDataResponse._overview_message response +:+ newline +:+ listing
            +:+ newline +:+ "To terminate a stream, react with the stream number."))
  /\ exists fields,
    fst (TautulliDataResponse.embed F T response st)
    = Ok {| TautulliDataResponse.embed_title :=
              TautulliDataResponse._overview_message response;
            TautulliDataResponse.embed_fields := fields;
            TautulliDataResponse.embed_footer :=
              if TautulliDataResponse.plex_pass response
              then Some "To terminate a stream, react with the stream number."
              else None |}
    /\ length fields = length (TautulliDataResponse._streams response)
    /\ Forall (fun field => snd field = false) fields.
Proof.
  intros Hsome. unfold TautulliDataResponse.message, TautulliDataResponse.embed.
  destruct (TautulliDataResponse._streams response) as [| stream rest]; [done |].
  unfold mbind, M_bind. split.
  - destruct (add_streams_returns (stream :: rest)
                (TautulliDataResponse._overview_message response +:+ newline) st)
      as (listing & Hlisting).
    destruct (TautulliDataResponse.add_streams _ _ _ _ _) as [[text | ?] st1]; [| done].
    cbn in Hlisting. injection Hlisting as ->. exists listing.
    cbn. by rewrite !append_assoc.
  - destruct (add_fields_returns (stream :: rest) [] st)
      as (added & Hadded & Hlength & Hinline).
    destruct (TautulliDataResponse.add_fields _ _ _ _ _) as [[fields | ?] st1]; [| done].
    cbn in Hadded. injection Hadded as ->. by exists added.
Qed.

End Rendering.

Lemma failed_poll_renders_as_no_activity_witness :
  let self := Samples.connector (Ok Samples.broken_payload) (Ok VNone) (Ok tt) in
  exists response after,
    TautulliConnector.refresh_data Samples.formatting self Samples.earlier
    = (Ok (response, 0, None, VBool false), after)
    /\ TautulliDataResponse.message Samples.formatting Cases.templates response after
       = (Ok "No current activity.", after).
Proof.
  intros self.
  assert (exists response,
            TautulliConnector.refresh_data Samples.formatting self Samples.earlier
            = (Ok (response, 0, None, VBool false),
               snd (TautulliConnector.refresh_data Samples.formatting self Samples.earlier)))
    as (response & Hpoll) by (eexists; reflexivity).
  exists response, (snd (TautulliConnector.refresh_data Samples.formatting self Samples.earlier)).
  split; [exact Hpoll |].
  exact (proj1 (proj2 (proj2 (proj2 (proj2
           (failed_poll_renders_as_no_activity Samples.formatting Cases.templates self
              Samples.earlier _ _ response 0 (VBool false) Hpoll)))))).
Defined.

Lemma embed_of_streams_witness :
  (exists listing,
      fst (TautulliDataResponse.message Samples.formatting Cases.templates
             Cases.bare_response Samples.earlier)
      = Ok ("2 streams" +:+ newline +:+ listing +:+ newline
            +:+ "To terminate a stream, react with the stream number."))
  /\ exists fields,
    fst (TautulliDataResponse.embed Samples.formatting Cases.templates Cases.bare_response
           Samples.earlier)
    = Ok {| TautulliDataResponse.embed_title := "2 streams";
            TautulliDataResponse.embed_fields := fields;
            TautulliDataResponse.embed_footer :=
              Some "To terminate a stream, react with the stream number." |}
    /\ length fields = 2%nat
    /\ Forall (fun field => snd field = false) fields.
Proof.
  exact (embed_of_streams Samples.formatting Cases.templates Cases.bare_response
           Samples.earlier ltac:(discriminate)).
Defined.
